(** * The object scanner of the mark-sweep collector (src/gc/mark_sweep-inl.h)

    A shallow embedding of the templates [MarkSweep::ScanObjectVisit],
    [MarkSweep::VisitObjectReferences] and the field and array scanners
    they dispatch to, with the properties the specification states about
    them.

    The heap is read through the accessors the code calls and is never
    written: every accessor below is a function of an immutable [Heap].
    The mutable data are the collector's own members (the cached meta-class
    pointer and the three counters), the effects of calls that leave this
    file (heap dump, fatal log, deferred-reference hook) and the private
    state of the visitor. *)

From Stdlib Require Import ZArith List Bool Lia Sorted.
Import ListNotations.
Local Open Scope Z_scope.

Set Implicit Arguments.

(** ** Machine-level data *)

(** A [mirror::Object*]: an address, [NULL] is 0. *)
Definition Ref := Z.
Definition NULL : Ref := 0.

(** A [MemberOffset]. *)
Definition MemberOffset := Z.

Definition uint32 (x : Z) : Prop := 0 <= x < 2 ^ 32.

(** [~x] on an [unsigned int]. *)
Definition uint32_not (x : Z) : Z := Z.lnot x mod 2 ^ 32.

(** Modelled from the spec: the macro [CLASS_HIGH_BIT] of mirror/class.h is
    not part of these files; section 3 reads set bits "from the
    most-significant bit downward", so it is the top bit of the 32-bit
    word. *)
Definition CLASS_HIGH_BIT : Z := 2 ^ 31.

(** [CLZ(x)] is the compiler's count-leading-zeros on a 32-bit word; the
    loop only calls it on a non-zero word. *)
Definition CLZ (x : Z) : Z := 31 - Z.log2 x.

(** ** Build-time constants

    None of them is declared in these files, so they are fields of a
    configuration. *)
Record Config := mkConfig {
  kIsDebugBuild : bool;
  kCountScannedTypes : bool;
  CLASS_WALK_SUPER : Z;
  (* coefficients of CLASS_OFFSET_FROM_CLZ *)
  CLASS_OFFSET_ALIGNMENT : Z;
  CLASS_SMALLEST_OFFSET : Z;
  (* mirror::Object::ClassOffset() *)
  ClassOffset : MemberOffset;
  (* sizeof(mirror::Object* ) and the width of size_t in bits *)
  sizeof_reference : Z;
  size_t_bits : Z;
  (* mirror::Array::DataOffset(width).Int32Value() *)
  DataOffset : Z -> Z
}.

(** Modelled from the spec: the macro [CLASS_OFFSET_FROM_CLZ] of
    mirror/class.h is not part of these files; section 4.1 calls it "a
    fixed linear mapping (bit position -> offset increment from the object
    header)". *)
Definition CLASS_OFFSET_FROM_CLZ (cfg : Config) (rshift : Z) : MemberOffset :=
  rshift * CLASS_OFFSET_ALIGNMENT cfg + CLASS_SMALLEST_OFFSET cfg.

(** Arithmetic on [size_t]. *)
Definition to_size_t (cfg : Config) (x : Z) : Z := x mod 2 ^ size_t_bits cfg.

(** ** The heap as the scanner reads it *)
Record Heap := mkHeap {
  (* mirror::Object *)
  GetClass : Ref -> Ref;
  GetFieldObject : Ref -> MemberOffset -> Ref;
  (* mirror::Class *)
  GetJavaLangClass : Ref;
  GetSuperClass : Ref -> Ref;
  GetReferenceInstanceOffsets : Ref -> Z;
  GetReferenceStaticOffsets : Ref -> Z;
  IsArrayClass : Ref -> bool;
  IsObjectArrayClass : Ref -> bool;
  IsReferenceClass : Ref -> bool;
  NumReferenceInstanceFields : Ref -> Z;
  NumReferenceStaticFields : Ref -> Z;
  GetInstanceField : Ref -> Z -> Ref;
  GetStaticField : Ref -> Z -> Ref;
  (* mirror::Field *)
  GetOffset : Ref -> MemberOffset;
  (* mirror::Array and mirror::ObjectArray *)
  GetLength : Ref -> Z;
  GetWithoutChecks : Ref -> Z -> Ref;
  (* the mark bitmap behind MarkSweep::IsMarked *)
  IsMarked : Ref -> bool;
  (* Modelled from the spec: the offset of the referent slot of a reference
     object; the runtime keeps it outside these files.  Section 3 keeps
     this slot out of the eager scan: the layout metadata of a reference
     class does not name it, see [referent_excluded]. *)
  ReferenceReferentOffset : MemberOffset
}.

(** ** Collector state and effects *)

Record MarkSweep := mkMarkSweep {
  java_lang_Class_ : Ref;
  class_count_ : Z;
  array_count_ : Z;
  other_count_ : Z
}.

(** Calls that leave this file, in the order they are made. *)
Inductive Event : Type :=
| EvDumpSpaces
| EvFatalUnmarked (obj : Ref)
| EvCheckFailed
| EvDelayReferenceReferent (obj : Ref).

Record State (V : Type) := mkState {
  ms : MarkSweep;
  effects : list Event;
  vs : V
}.

Definition set_ms {V} (f : MarkSweep -> MarkSweep) (st : State V) : State V :=
  {| ms := f (ms st); effects := effects st; vs := vs st |}.
Definition emit {V} (e : Event) (st : State V) : State V :=
  {| ms := ms st; effects := effects st ++ [e]; vs := vs st |}.
Definition set_vs {V} (f : V -> V) (st : State V) : State V :=
  {| ms := ms st; effects := effects st; vs := f (vs st) |}.

(** ** A state monad with abort and fuel *)

Inductive Result (S A : Type) : Type :=
| Ok (a : A) (s : S)
| Aborted (s : S)
| OutOfFuel.
Arguments Ok {S A} a s.
Arguments Aborted {S A} s.
Arguments OutOfFuel {S A}.

Definition M (S A : Type) : Type := S -> Result S A.

Definition ret {S A} (a : A) : M S A := fun s => Ok a s.
Definition bind {S A B} (m : M S A) (k : A -> M S B) : M S B :=
  fun s => match m s with
           | Ok a s' => k a s'
           | Aborted s' => Aborted s'
           | OutOfFuel => OutOfFuel
           end.
Definition out_of_fuel {S A} : M S A := fun _ => OutOfFuel.
Definition abort {S A} : M S A := fun s => Aborted s.
Definition modify {S} (f : S -> S) : M S unit := fun s => Ok tt (f s).
Definition gets {S A} (f : S -> A) : M S A := fun s => Ok (f s) s.
Definition when {S} (b : bool) (m : M S unit) : M S unit :=
  if b then m else ret tt.

Declare Scope scan_scope.
Delimit Scope scan_scope with scan.
Notation "x <- m ;; k" := (bind m (fun x => k))
  (at level 61, m at next level, right associativity) : scan_scope.
Notation "m ;; k" := (bind m (fun _ => k))
  (at level 61, right associativity) : scan_scope.
Local Open Scope scan_scope.

(** [for (i = from; i < from + n; ++i) body(i)]. *)
Fixpoint for_range {S} (from : Z) (n : nat) (body : Z -> M S unit) : M S unit :=
  match n with
  | O => ret tt
  | S n' => body from ;; for_range (from + 1) n' body
  end.

(** [for (i = 0; i < bound; ++i) body(i)]. *)
Definition for_upto {S} (bound : Z) (body : Z -> M S unit) : M S unit :=
  for_range 0 (Z.to_nat bound) body.

(** ** The visitor protocol *)

(** [visitor(holder, referent, offset, is_static)] acting on the visitor's
    own state. *)
Definition Visitor (V : Type) : Type :=
  Ref -> Ref -> MemberOffset -> bool -> V -> V.

Record Call := mkCall {
  holder : Ref;
  referent : Ref;
  offset : MemberOffset;
  is_static_field : bool
}.

Definition invoke {V} (visitor : Visitor V) (c : Call) : V -> V :=
  visitor (holder c) (referent c) (offset c) (is_static_field c).

Definition replay {V} (visitor : Visitor V) (calls : list Call) (v : V) : V :=
  fold_left (fun v c => invoke visitor c v) calls v.

(** The visitor that writes down its arguments. *)
Definition recorder : Visitor (list Call) :=
  fun h r o s log => log ++ [mkCall h r o s].

(** ** The scanner *)

Section Scanner.
Variable cfg : Config.
Variable h : Heap.
Variable V : Type.
Variable visitor : Visitor V.

Local Abbreviation Scan := (M (State V)).

Definition call_visitor (obj ref : Ref) (field_offset : MemberOffset)
           (is_static : bool) : Scan unit :=
  modify (set_vs (visitor obj ref field_offset is_static)).

(** [DCHECK(cond)]: compiled in only in debug builds; a failed check logs
    and aborts. *)
Definition DCHECK (cond : bool) : Scan unit :=
  if kIsDebugBuild cfg && negb cond
  then modify (emit EvCheckFailed) ;; abort
  else ret tt.

(** The fast path of [VisitFieldsReferences]: [while (ref_offsets != 0)]. *)
Fixpoint bitmap_loop (fuel : nat) (obj : Ref) (ref_offsets : Z)
         (is_static : bool) : Scan unit :=
  if ref_offsets =? 0 then ret tt
  else match fuel with
       | O => out_of_fuel
       | S fuel' =>
           let right_shift := CLZ ref_offsets in
           let field_offset := CLASS_OFFSET_FROM_CLZ cfg right_shift in
           let ref := GetFieldObject h obj field_offset in
           call_visitor obj ref field_offset is_static ;;
           bitmap_loop fuel' obj
             (Z.land ref_offsets
                     (uint32_not (Z.shiftr CLASS_HIGH_BIT right_shift)))
             is_static
       end.

(** The inner loop of the slow path: the reference fields of one class. *)
Definition visit_class_fields (obj klass : Ref) (is_static : bool) : Scan unit :=
  let num_reference_fields :=
    if is_static then NumReferenceStaticFields h klass
    else NumReferenceInstanceFields h klass in
  for_upto num_reference_fields (fun i =>
    let field := if is_static then GetStaticField h klass i
                 else GetInstanceField h klass i in
    let field_offset := GetOffset h field in
    let ref := GetFieldObject h obj field_offset in
    call_visitor obj ref field_offset is_static).

(** The outer loop of the slow path:
    [for (klass = ...; klass != NULL; klass = is_static ? NULL : super)]. *)
Fixpoint class_walk (fuel : nat) (obj klass : Ref) (is_static : bool)
  : Scan unit :=
  if klass =? NULL then ret tt
  else match fuel with
       | O => out_of_fuel
       | S fuel' =>
           visit_class_fields obj klass is_static ;;
           class_walk fuel' obj
             (if is_static then NULL else GetSuperClass h klass) is_static
       end.

Definition VisitFieldsReferences (fuel : nat) (obj : Ref) (ref_offsets : Z)
           (is_static : bool) : Scan unit :=
  if negb (ref_offsets =? CLASS_WALK_SUPER cfg) then
    bitmap_loop fuel obj ref_offsets is_static
  else
    class_walk fuel obj (if is_static then obj (* AsClass *) else GetClass h obj)
               is_static.

Definition VisitInstanceFieldsReferences (fuel : nat) (klass obj : Ref)
  : Scan unit :=
  DCHECK (negb (obj =? NULL)) ;;
  DCHECK (negb (klass =? NULL)) ;;
  VisitFieldsReferences fuel obj (GetReferenceInstanceOffsets h klass) false.

Definition VisitStaticFieldsReferences (fuel : nat) (klass : Ref) : Scan unit :=
  DCHECK (negb (klass =? NULL)) ;;
  VisitFieldsReferences fuel klass (GetReferenceStaticOffsets h klass) true.

Definition VisitClassReferences (fuel : nat) (klass obj : Ref) : Scan unit :=
  VisitInstanceFieldsReferences fuel klass obj ;;
  VisitStaticFieldsReferences fuel obj (* AsClass *).

(** Modelled from the spec: [VisitOtherReferences] is defined in
    mark_sweep.h, which is not part of these files; section 4.2 step 5:
    "ordinary instance: visit instance fields via 4.1". *)
Definition VisitOtherReferences (fuel : nat) (klass obj : Ref) : Scan unit :=
  VisitInstanceFieldsReferences fuel klass obj.

(** The offset of element [i]: [i * width + DataOffset(width)] on [size_t]. *)
Definition element_offset (i : Z) : MemberOffset :=
  let width := sizeof_reference cfg in
  to_size_t cfg (i * width + DataOffset cfg width).

Definition VisitObjectArrayReferences (array : Ref) : Scan unit :=
  let length := GetLength h array in
  for_upto length (fun i =>
    let element := GetWithoutChecks h array i in
    let offset := element_offset i in
    call_visitor array element offset false).

(** [++count] on a [size_t] member. *)
Definition incr (c : Z) : Z := to_size_t cfg (c + 1).
Definition incr_class_count (m : MarkSweep) : MarkSweep :=
  {| java_lang_Class_ := java_lang_Class_ m;
     class_count_ := incr (class_count_ m);
     array_count_ := array_count_ m;
     other_count_ := other_count_ m |}.
Definition incr_array_count (m : MarkSweep) : MarkSweep :=
  {| java_lang_Class_ := java_lang_Class_ m;
     class_count_ := class_count_ m;
     array_count_ := incr (array_count_ m);
     other_count_ := other_count_ m |}.
Definition incr_other_count (m : MarkSweep) : MarkSweep :=
  {| java_lang_Class_ := java_lang_Class_ m;
     class_count_ := class_count_ m;
     array_count_ := array_count_ m;
     other_count_ := incr (other_count_ m) |}.

(** Modelled from the spec: [Heap::DumpSpaces] is not part of these files;
    section 7 calls it "full heap-space diagnostics".  The call is
    recorded. *)
Definition DumpSpaces : Scan unit := modify (emit EvDumpSpaces).

(** [LOG(FATAL) << "Scanning unmarked object " << obj]: the message is
    recorded and the run aborts. *)
Definition LOG_FATAL_unmarked (obj : Ref) : Scan unit :=
  modify (emit (EvFatalUnmarked obj)) ;; abort.

(** Modelled from the spec: [MarkSweep::DelayReferenceReferent] is not part
    of these files; section 6 lists it as the collector's
    deferred-reference hook.  The call is recorded with its argument. *)
Definition DelayReferenceReferent (obj : Ref) : Scan unit :=
  modify (emit (EvDelayReferenceReferent obj)).

Definition ScanObjectVisit (fuel : nat) (obj : Ref) : Scan unit :=
  DCHECK (negb (obj =? NULL)) ;;
  when (kIsDebugBuild cfg && negb (IsMarked h obj))
       (DumpSpaces ;; LOG_FATAL_unmarked obj) ;;
  let klass := GetClass h obj in
  DCHECK (negb (klass =? NULL)) ;;
  meta <- gets (fun st => java_lang_Class_ (ms st)) ;;
  if klass =? meta then
    DCHECK (GetClass h klass =? meta) ;;
    when (kCountScannedTypes cfg) (modify (set_ms incr_class_count)) ;;
    VisitClassReferences fuel klass obj
  else if IsArrayClass h klass then
    when (kCountScannedTypes cfg) (modify (set_ms incr_array_count)) ;;
    call_visitor obj klass (ClassOffset cfg) false ;;
    when (IsObjectArrayClass h klass)
         (VisitObjectArrayReferences obj (* AsObjectArray *))
  else
    when (kCountScannedTypes cfg) (modify (set_ms incr_other_count)) ;;
    VisitOtherReferences fuel klass obj ;;
    when (IsReferenceClass h klass) (DelayReferenceReferent obj).

Definition VisitObjectReferences (fuel : nat) (obj : Ref) : Scan unit :=
  DCHECK (negb (obj =? NULL)) ;;
  DCHECK (negb (GetClass h obj =? NULL)) ;;
  let klass := GetClass h obj in
  DCHECK (negb (klass =? NULL)) ;;
  if klass =? GetJavaLangClass h then
    DCHECK (GetClass h klass =? GetJavaLangClass h) ;;
    VisitClassReferences fuel klass obj
  else
    if IsArrayClass h klass then
      call_visitor obj klass (ClassOffset cfg) false ;;
      when (IsObjectArrayClass h klass)
           (VisitObjectArrayReferences obj (* AsObjectArray *))
    else
      VisitOtherReferences fuel klass obj.

End Scanner.

Arguments ScanObjectVisit cfg h {V} visitor fuel obj _.
Arguments VisitObjectReferences cfg h {V} visitor fuel obj _.
Arguments VisitFieldsReferences cfg h {V} visitor fuel obj ref_offsets is_static _.
Arguments VisitObjectArrayReferences cfg h {V} visitor array _.
Arguments VisitClassReferences cfg h {V} visitor fuel klass obj _.
Arguments VisitInstanceFieldsReferences cfg h {V} visitor fuel klass obj _.
Arguments VisitStaticFieldsReferences cfg h {V} visitor fuel klass _.
Arguments VisitOtherReferences cfg h {V} visitor fuel klass obj _.
Arguments bitmap_loop cfg h {V} visitor fuel obj ref_offsets is_static _.
Arguments class_walk h {V} visitor fuel obj klass is_static _.
Arguments visit_class_fields h {V} visitor obj klass is_static _.
Arguments call_visitor {V} visitor obj ref field_offset is_static _.
Arguments DCHECK cfg {V} cond _.

(** ** What the scanner is expected to report *)

(** [from; from + 1; ...], [n] numbers. *)
Fixpoint Zrange (from : Z) (n : nat) : list Z :=
  match n with
  | O => []
  | S n' => from :: Zrange (from + 1) n'
  end.

(** The indices of [for (i = 0; i < bound; ++i)]. *)
Definition indices (bound : Z) : list Z := Zrange 0 (Z.to_nat bound).

(** The positions of the set bits of [r] below position [n], highest first. *)
Definition bits_desc (n : nat) (r : Z) : list Z :=
  filter (Z.testbit r) (map Z.of_nat (rev (seq 0 n))).

Definition set_bits_desc (r : Z) : list Z := bits_desc 32 r.

(** The number of set bits of a 32-bit word. *)
Definition popcount (r : Z) : nat := length (set_bits_desc r).

Section Expected.
Variable cfg : Config.
Variable h : Heap.

(** The call made for the set bit at position [b]. *)
Definition bitmap_call (obj : Ref) (is_static : bool) (b : Z) : Call :=
  let field_offset := CLASS_OFFSET_FROM_CLZ cfg (31 - b) in
  mkCall obj (GetFieldObject h obj field_offset) field_offset is_static.

Definition bitmap_calls (obj : Ref) (r : Z) (is_static : bool) : list Call :=
  map (bitmap_call obj is_static) (set_bits_desc r).

(** The call made for the [i]-th declared reference field of [klass]. *)
Definition field_call (obj klass : Ref) (is_static : bool) (i : Z) : Call :=
  let field := if is_static then GetStaticField h klass i
               else GetInstanceField h klass i in
  mkCall obj (GetFieldObject h obj (GetOffset h field)) (GetOffset h field)
         is_static.

Definition level_calls (obj : Ref) (is_static : bool) (klass : Ref) : list Call :=
  map (field_call obj klass is_static)
      (indices (if is_static then NumReferenceStaticFields h klass
                else NumReferenceInstanceFields h klass)).

(** The classes from [klass] up to the root, if [fuel] steps reach it. *)
Fixpoint ancestors (fuel : nat) (klass : Ref) : option (list Ref) :=
  if klass =? NULL then Some []
  else match fuel with
       | O => None
       | S fuel' =>
           option_map (cons klass) (ancestors fuel' (GetSuperClass h klass))
       end.

Definition element_call (array : Ref) (i : Z) : Call :=
  mkCall array (GetWithoutChecks h array i) (element_offset cfg i) false.

Definition array_calls (array : Ref) : list Call :=
  map (element_call array) (indices (GetLength h array)).

Definition class_slot_call (obj : Ref) : Call :=
  mkCall obj (GetClass h obj) (ClassOffset cfg) false.
End Expected.

(** ** Classification, preconditions and the expected result of a scan *)

Inductive Kind : Type := KindClass | KindArray | KindOther.

(** The order of the tests of both entry points, against the meta-class
    pointer [meta] they compare with. *)
Definition classify (h : Heap) (meta obj : Ref) : Kind :=
  let klass := GetClass h obj in
  if klass =? meta then KindClass
  else if IsArrayClass h klass then KindArray
  else KindOther.

Definition is_uint32 (x : Z) : bool := (0 <=? x) && (x <? 2 ^ 32).

(** The layout words read when [obj] is scanned are 32-bit values. *)
Definition wf_offsets (h : Heap) (meta obj : Ref) : bool :=
  match classify h meta obj with
  | KindClass =>
      is_uint32 (GetReferenceInstanceOffsets h (GetClass h obj))
      && is_uint32 (GetReferenceStaticOffsets h obj)
  | KindArray => true
  | KindOther => is_uint32 (GetReferenceInstanceOffsets h (GetClass h obj))
  end.

(** What the debug assertions of an entry point ask of [obj]. *)
Definition dchecks_pass (cfg : Config) (h : Heap) (meta obj : Ref) : bool :=
  negb (kIsDebugBuild cfg)
  || (negb (obj =? NULL)
      && negb (GetClass h obj =? NULL)
      && implb (GetClass h obj =? meta) (GetClass h (GetClass h obj) =? meta)).

(** The precondition of [ScanObjectVisit] that debug builds test. *)
Definition marked_ok (cfg : Config) (h : Heap) (obj : Ref) : bool :=
  negb (kIsDebugBuild cfg) || IsMarked h obj.

Section ExpectedScan.
Variable cfg : Config.
Variable h : Heap.

(** The calls of [VisitFieldsReferences], or [None] when [fuel] does not
    cover its loop. *)
Definition FieldsCalls (fuel : nat) (obj : Ref) (r : Z) (is_static : bool)
  : option (list Call) :=
  if negb (r =? CLASS_WALK_SUPER cfg) then
    if (popcount r <=? fuel)%nat then Some (bitmap_calls cfg h obj r is_static)
    else None
  else if is_static then
    if obj =? NULL then Some []
    else match fuel with
         | O => None
         | S _ => Some (level_calls h obj true obj)
         end
  else
    option_map (flat_map (level_calls h obj false))
               (ancestors h fuel (GetClass h obj)).

Definition ClassCalls (fuel : nat) (klass obj : Ref) : option (list Call) :=
  match FieldsCalls fuel obj (GetReferenceInstanceOffsets h klass) false with
  | Some instance_calls =>
      match FieldsCalls fuel obj (GetReferenceStaticOffsets h obj) true with
      | Some static_calls => Some (instance_calls ++ static_calls)
      | None => None
      end
  | None => None
  end.

Definition ArrayObjectCalls (obj : Ref) : list Call :=
  class_slot_call cfg h obj
  :: (if IsObjectArrayClass h (GetClass h obj) then array_calls cfg h obj
      else []).

Definition ObjectCalls (meta : Ref) (fuel : nat) (obj : Ref)
  : option (list Call) :=
  match classify h meta obj with
  | KindClass => ClassCalls fuel (GetClass h obj) obj
  | KindArray => Some (ArrayObjectCalls obj)
  | KindOther =>
      FieldsCalls fuel obj (GetReferenceInstanceOffsets h (GetClass h obj)) false
  end.

Definition count_kind (kind : Kind) (m : MarkSweep) : MarkSweep :=
  if kCountScannedTypes cfg then
    match kind with
    | KindClass => incr_class_count cfg m
    | KindArray => incr_array_count cfg m
    | KindOther => incr_other_count cfg m
    end
  else m.

(** The hook calls [ScanObjectVisit] makes for [obj]. *)
Definition delayed (kind : Kind) (obj : Ref) : list Event :=
  match kind with
  | KindOther =>
      if IsReferenceClass h (GetClass h obj)
      then [EvDelayReferenceReferent obj] else []
  | _ => []
  end.
End ExpectedScan.

(** The state after a list of visitor calls. *)
Definition visited {V} (visitor : Visitor V) (calls : list Call)
           (st : State V) : State V :=
  set_vs (replay visitor calls) st.

(** The state [ScanObjectVisit] leaves when it returns, having made [calls]. *)
Definition scanned {V} (cfg : Config) (h : Heap) (visitor : Visitor V)
           (obj : Ref) (calls : list Call) (st : State V) : State V :=
  let kind := classify h (java_lang_Class_ (ms st)) obj in
  {| ms := count_kind cfg kind (ms st);
     effects := effects st ++ delayed h kind obj;
     vs := replay visitor calls (vs st) |}.

(** The visitor calls logged by a run, however it ended. *)
Definition final_state {S A} (r : Result S A) : option S :=
  match r with
  | Ok _ s => Some s
  | Aborted s => Some s
  | OutOfFuel => None
  end.

(** The result of a scanner that makes [calls], or runs out of fuel. *)
Definition finish {V} (visitor : Visitor V) (o : option (list Call))
           (st : State V) : Result (State V) unit :=
  match o with
  | Some calls => Ok tt (visited visitor calls st)
  | None => OutOfFuel
  end.

(** A visitor [v] that also writes down its arguments. *)
Definition logged {V} (v : Visitor V) : Visitor (V * list Call) :=
  fun h r o s st => (v h r o s (fst st), snd st ++ [mkCall h r o s]).

(** A scanner leaves the collector's members alone, however it ends. *)
Definition keeps_ms {V A} (m : M (State V) A) : Prop :=
  forall st s', final_state (m st) = Some s' -> ms s' = ms st.

(** The number of hook calls for [obj] among the effects. *)
Definition delay_count (obj : Ref) (evs : list Event) : nat :=
  length (filter (fun e => match e with
                           | EvDelayReferenceReferent o => o =? obj
                           | _ => false
                           end) evs).

(** ** A small heap to run the scanner on

    A debug build with counting on a 32-bit target.  The classes are
    [java.lang.Class] at 64, [Object] at 96, [Node] at 128 (fields
    [next] at offset 8, [value] at 12, [label] at 16), a reference class at
    160, [Object[]] at 192, [int[]] at 208 and a class at 224 whose layout
    word is the sentinel.  The instances are a node at 1000, a reference
    object at 1100, an array [[a; null; c]] at 1200, an instance of the
    sentinel class at 1300 and an unmarked node at 1400. *)

Definition assoc {A} (default : A) (tbl : list (Z * A)) (k : Z) : A :=
  match find (fun p => fst p =? k) tbl with
  | Some p => snd p
  | None => default
  end.

Definition demo_cfg : Config :=
  {| kIsDebugBuild := true;
     kCountScannedTypes := true;
     CLASS_WALK_SUPER := 3;
     CLASS_OFFSET_ALIGNMENT := 4;
     CLASS_SMALLEST_OFFSET := 0;
     ClassOffset := 0;
     sizeof_reference := 4;
     size_t_bits := 32;
     DataOffset := fun _ => 12 |}.

Definition demo_heap : Heap :=
  {| GetClass := assoc 0 [(64, 64); (96, 64); (128, 64); (160, 64); (192, 64);
                          (208, 64); (224, 64);
                          (1000, 128); (1100, 160); (1200, 192); (1300, 224);
                          (1400, 128)];
     GetFieldObject := fun obj off =>
       assoc 0 [(1000 * 64 + 8, 1001); (1000 * 64 + 16, 1002);
                (1100 * 64 + 8, 1101);
                (1300 * 64 + 0, 224); (1300 * 64 + 8, 1301);
                (1300 * 64 + 12, 1302);
                (128 * 64 + 4, 96); (128 * 64 + 44, 2000);
                (224 * 64 + 0, 64); (224 * 64 + 4, 96); (224 * 64 + 48, 2001)]
             (obj * 64 + off);
     GetJavaLangClass := 64;
     GetSuperClass := assoc 0 [(64, 96); (128, 96); (160, 96); (192, 96);
                               (208, 96); (224, 96)];
     GetReferenceInstanceOffsets :=
       assoc 0 [(64, 2 ^ 30); (128, 2 ^ 29 + 2 ^ 27); (160, 2 ^ 29); (224, 3)];
     GetReferenceStaticOffsets := assoc 0 [(128, 2 ^ 20)];
     IsArrayClass := assoc false [(192, true); (208, true)];
     IsObjectArrayClass := assoc false [(192, true)];
     IsReferenceClass := assoc false [(160, true)];
     NumReferenceInstanceFields := assoc 0 [(64, 1); (96, 1); (224, 2)];
     NumReferenceStaticFields := assoc 0 [(224, 1)];
     GetInstanceField := fun klass i =>
       assoc 0 [(64 * 64 + 0, 3004); (96 * 64 + 0, 3002);
                (224 * 64 + 0, 3000); (224 * 64 + 1, 3001)]
             (klass * 64 + i);
     GetStaticField := fun klass i =>
       assoc 0 [(224 * 64 + 0, 3003)] (klass * 64 + i);
     GetOffset :=
       assoc 0 [(3000, 8); (3001, 12); (3002, 0); (3003, 48); (3004, 4)];
     GetLength := assoc 0 [(1200, 3)];
     GetWithoutChecks := fun array i =>
       assoc 0 [(1200 * 64 + 0, 1201); (1200 * 64 + 2, 1203)] (array * 64 + i);
     IsMarked := fun obj => negb (obj =? 1400);
     ReferenceReferentOffset := 12 |}.

Definition demo_ms : MarkSweep :=
  {| java_lang_Class_ := 64; class_count_ := 0; array_count_ := 0;
     other_count_ := 0 |}.

Definition demo_state {V} (v : V) : State V :=
  {| ms := demo_ms; effects := []; vs := v |}.

(** A visitor that only counts its calls. *)
Definition counting_visitor : Visitor nat := fun _ _ _ _ n => S n.

(** [chain] lists [klass], its superclass, and so on up to the class
    without superclass. *)
Inductive AncestorChain (h : Heap) : Ref -> list Ref -> Prop :=
| chain_end : AncestorChain h NULL []
| chain_up (klass : Ref) (chain : list Ref) :
    klass <> NULL ->
    AncestorChain h (GetSuperClass h klass) chain ->
    AncestorChain h klass (klass :: chain).

(** The elements of the array [obj] lie inside the address space, so the
    [size_t] arithmetic of their offsets does not wrap. *)
Definition array_fits (cfg : Config) (h : Heap) (obj : Ref) : bool :=
  let width := sizeof_reference cfg in
  (0 <? width)
  && (0 <=? DataOffset cfg width)
  && (GetLength h obj * width + DataOffset cfg width <=? 2 ^ size_t_bits cfg).

(** A scanner that only calls the visitor: it returns or runs out of fuel,
    never aborts, and leaves the collector's members and the effects
    alone. *)
Definition pure_visit {V A} (m : M (State V) A) : Prop :=
  forall st, match m st with
             | Ok _ s' => ms s' = ms st /\ effects s' = effects st
             | Aborted _ => False
             | OutOfFuel => True
             end.

(** ** A heap with one class

    The class at 32 has two reference fields, at offsets 8 and 16, described
    both by field descriptors (40 and 41) and by the layout word
    [2 ^ 29 + 2 ^ 27]; its superclass is [super].  The object at 16 is its
    only instance. *)
Definition small_heap (super : Ref) : Heap :=
  {| GetClass := assoc 0 [(16, 32); (32, 64); (64, 64)];
     GetFieldObject := fun obj off =>
       assoc 0 [(16 * 64 + 8, 17); (16 * 64 + 16, 18)] (obj * 64 + off);
     GetJavaLangClass := 64;
     GetSuperClass := assoc 0 [(32, super)];
     GetReferenceInstanceOffsets := assoc 0 [(32, 2 ^ 29 + 2 ^ 27)];
     GetReferenceStaticOffsets := assoc 0 [];
     IsArrayClass := fun _ => false;
     IsObjectArrayClass := fun _ => false;
     IsReferenceClass := fun _ => false;
     NumReferenceInstanceFields := assoc 0 [(32, 2)];
     NumReferenceStaticFields := assoc 0 [];
     GetInstanceField := fun klass i =>
       assoc 0 [(32 * 64 + 0, 40); (32 * 64 + 1, 41)] (klass * 64 + i);
     GetStaticField := fun _ _ => 0;
     GetOffset := assoc 0 [(40, 8); (41, 16)];
     GetLength := fun _ => 0;
     GetWithoutChecks := fun _ _ => 0;
     IsMarked := fun _ => true;
     ReferenceReferentOffset := 12 |}.

(** The class is a root. *)
Definition flat_heap : Heap := small_heap NULL.

(** The class is its own superclass. *)
Definition cyclic_heap : Heap := small_heap 32.

(** The target of [demo_cfg] built without debug checks. *)
Definition release_cfg : Config :=
  {| kIsDebugBuild := false;
     kCountScannedTypes := true;
     CLASS_WALK_SUPER := 3;
     CLASS_OFFSET_ALIGNMENT := 4;
     CLASS_SMALLEST_OFFSET := 0;
     ClassOffset := 0;
     sizeof_reference := 4;
     size_t_bits := 32;
     DataOffset := fun _ => 12 |}.

(** ** The referent slot and the layout metadata *)


(** ** Pointers the scanner dereferences *)

(** The object, its class and the field descriptors of every class are
    real: the scanner reads through all of them without a test when the
    debug checks are compiled out. *)
Definition derefs_ok (h : Heap) (obj : Ref) : Prop :=
  obj <> NULL
  /\ GetClass h obj <> NULL
  /\ (forall klass i,
         klass <> NULL -> 0 <= i < NumReferenceInstanceFields h klass ->
         GetInstanceField h klass i <> NULL)
  /\ (forall klass i,
         klass <> NULL -> 0 <= i < NumReferenceStaticFields h klass ->
         GetStaticField h klass i <> NULL).

(** ** The scanner over a heap that can change

    The same templates with the heap kept in the state, next to the
    visitor's own data: every accessor is a read of the heap as it is at
    that point, the visitor may rewrite the heap as well as its own data,
    and the deferred-reference hook, which is handed a non-const pointer to
    the object, may rewrite the heap too. *)

(** A visitor that leaves the heap as it finds it. *)
Definition keeps_heap {V} (visitor : Visitor (Heap * V)) : Prop :=
  forall holder ref off is_static w,
    fst (visitor holder ref off is_static w) = fst w.

(** A visitor with data of its own only, as a visitor over heap and data. *)
Definition lift_visitor {V} (v : Visitor V) : Visitor (Heap * V) :=
  fun holder ref off is_static w => (fst w, v holder ref off is_static (snd w)).

(** A visitor over heap and data that also writes down its arguments. *)
Definition wlogged {V} (v : Visitor (Heap * V))
  : Visitor (Heap * (V * list Call)) :=
  fun holder ref off is_static w =>
    let w' := v holder ref off is_static (fst w, fst (snd w)) in
    (fst w', (snd w', snd (snd w) ++ [mkCall holder ref off is_static])).

Module Threaded.
Section Scanner.
Variable cfg : Config.
Variable V : Type.
Variable visitor : Visitor (Heap * V).
(* what MarkSweep::DelayReferenceReferent does to the heap; its body is not
   part of these files *)
Variable hook : Ref -> Heap -> Heap.

Local Abbreviation Scan := (M (State (Heap * V))).

(** A read of the heap as it is now. *)
Definition read {A} (f : Heap -> A) : Scan A :=
  gets (fun st => f (fst (vs st))).

Fixpoint bitmap_loop (fuel : nat) (obj : Ref) (ref_offsets : Z)
         (is_static : bool) : Scan unit :=
  if ref_offsets =? 0 then ret tt
  else match fuel with
       | O => out_of_fuel
       | S fuel' =>
           let right_shift := CLZ ref_offsets in
           let field_offset := CLASS_OFFSET_FROM_CLZ cfg right_shift in
           ref <- read (fun h => GetFieldObject h obj field_offset) ;;
           call_visitor visitor obj ref field_offset is_static ;;
           bitmap_loop fuel' obj
             (Z.land ref_offsets
                     (uint32_not (Z.shiftr CLASS_HIGH_BIT right_shift)))
             is_static
       end.

Definition visit_class_fields (obj klass : Ref) (is_static : bool)
  : Scan unit :=
  num_reference_fields <-
    read (fun h => if is_static then NumReferenceStaticFields h klass
                   else NumReferenceInstanceFields h klass) ;;
  for_upto num_reference_fields (fun i =>
    field <- read (fun h => if is_static then GetStaticField h klass i
                            else GetInstanceField h klass i) ;;
    field_offset <- read (fun h => GetOffset h field) ;;
    ref <- read (fun h => GetFieldObject h obj field_offset) ;;
    call_visitor visitor obj ref field_offset is_static).

Fixpoint class_walk (fuel : nat) (obj klass : Ref) (is_static : bool)
  : Scan unit :=
  if klass =? NULL then ret tt
  else match fuel with
       | O => out_of_fuel
       | S fuel' =>
           visit_class_fields obj klass is_static ;;
           next <- (if is_static then ret NULL
                    else read (fun h => GetSuperClass h klass)) ;;
           class_walk fuel' obj next is_static
       end.

Definition VisitFieldsReferences (fuel : nat) (obj : Ref) (ref_offsets : Z)
           (is_static : bool) : Scan unit :=
  if negb (ref_offsets =? CLASS_WALK_SUPER cfg) then
    bitmap_loop fuel obj ref_offsets is_static
  else
    klass <- (if is_static then ret obj (* AsClass *)
              else read (fun h => GetClass h obj)) ;;
    class_walk fuel obj klass is_static.

Definition VisitInstanceFieldsReferences (fuel : nat) (klass obj : Ref)
  : Scan unit :=
  DCHECK cfg (negb (obj =? NULL)) ;;
  DCHECK cfg (negb (klass =? NULL)) ;;
  ref_offsets <- read (fun h => GetReferenceInstanceOffsets h klass) ;;
  VisitFieldsReferences fuel obj ref_offsets false.

Definition VisitStaticFieldsReferences (fuel : nat) (klass : Ref)
  : Scan unit :=
  DCHECK cfg (negb (klass =? NULL)) ;;
  ref_offsets <- read (fun h => GetReferenceStaticOffsets h klass) ;;
  VisitFieldsReferences fuel klass ref_offsets true.

Definition VisitClassReferences (fuel : nat) (klass obj : Ref) : Scan unit :=
  VisitInstanceFieldsReferences fuel klass obj ;;
  VisitStaticFieldsReferences fuel obj (* AsClass *).

(** Modelled from the spec: [VisitOtherReferences] is defined in
    mark_sweep.h, which is not part of these files; section 4.2 step 5:
    "ordinary instance: visit instance fields via 4.1". *)
Definition VisitOtherReferences (fuel : nat) (klass obj : Ref) : Scan unit :=
  VisitInstanceFieldsReferences fuel klass obj.

Definition VisitObjectArrayReferences (array : Ref) : Scan unit :=
  length <- read (fun h => GetLength h array) ;;
  for_upto length (fun i =>
    element <- read (fun h => GetWithoutChecks h array i) ;;
    let offset := element_offset cfg i in
    call_visitor visitor array element offset false).

(** Modelled from the spec: [MarkSweep::DelayReferenceReferent] is not part
    of these files; section 6 lists it as the collector's
    deferred-reference hook.  The call is recorded with its argument and
    [hook] is applied to the heap. *)
Definition DelayReferenceReferent (obj : Ref) : Scan unit :=
  modify (fun st =>
            emit (EvDelayReferenceReferent obj)
                 (set_vs (fun w => (hook obj (fst w), snd w)) st)).

Definition ScanObjectVisit (fuel : nat) (obj : Ref) : Scan unit :=
  DCHECK cfg (negb (obj =? NULL)) ;;
  marked <- read (fun h => IsMarked h obj) ;;
  when (kIsDebugBuild cfg && negb marked)
       (@DumpSpaces (Heap * V) ;; @LOG_FATAL_unmarked (Heap * V) obj) ;;
  klass <- read (fun h => GetClass h obj) ;;
  DCHECK cfg (negb (klass =? NULL)) ;;
  meta <- gets (fun st => java_lang_Class_ (ms st)) ;;
  if klass =? meta then
    klass_class <- read (fun h => GetClass h klass) ;;
    DCHECK cfg (klass_class =? meta) ;;
    when (kCountScannedTypes cfg) (modify (set_ms (incr_class_count cfg))) ;;
    VisitClassReferences fuel klass obj
  else
    is_array <- read (fun h => IsArrayClass h klass) ;;
    if is_array : bool then
      when (kCountScannedTypes cfg) (modify (set_ms (incr_array_count cfg))) ;;
      call_visitor visitor obj klass (ClassOffset cfg) false ;;
      is_object_array <- read (fun h => IsObjectArrayClass h klass) ;;
      when is_object_array (VisitObjectArrayReferences obj (* AsObjectArray *))
    else
      when (kCountScannedTypes cfg) (modify (set_ms (incr_other_count cfg))) ;;
      VisitOtherReferences fuel klass obj ;;
      is_reference <- read (fun h => IsReferenceClass h klass) ;;
      when is_reference (DelayReferenceReferent obj).
End Scanner.
End Threaded.

(** The heap-and-data scanner agrees with [m], run on the fixed heap [h],
    from every state whose heap is [h], and [m] ends with the heap [h]. *)
Definition simulates {V A} (h : Heap) (mt m : M (State (Heap * V)) A) : Prop :=
  forall st,
    fst (vs st) = h ->
    mt st = m st
    /\ match m st with
       | Ok _ s' => fst (vs s') = h
       | Aborted s' => fst (vs s') = h
       | OutOfFuel => True
       end.

(** A collector whose counters have already moved. *)
Definition busy_ms : MarkSweep :=
  {| java_lang_Class_ := 64; class_count_ := 7; array_count_ := 11;
     other_count_ := 41 |}.

Definition busy_state {V} (v : V) : State V :=
  {| ms := busy_ms; effects := [EvDelayReferenceReferent 1100]; vs := v |}.

(** A hook that writes nothing. *)
Definition idle_hook : Ref -> Heap -> Heap := fun _ h => h.

(** The heap after a store of [val] into the slot at [off] of [obj]. *)
Definition store_field (h : Heap) (obj : Ref) (off : MemberOffset) (val : Ref)
  : Heap :=
  {| GetClass := GetClass h;
     GetFieldObject := fun o f => if (o =? obj) && (f =? off) then val
                                  else GetFieldObject h o f;
     GetJavaLangClass := GetJavaLangClass h;
     GetSuperClass := GetSuperClass h;
     GetReferenceInstanceOffsets := GetReferenceInstanceOffsets h;
     GetReferenceStaticOffsets := GetReferenceStaticOffsets h;
     IsArrayClass := IsArrayClass h;
     IsObjectArrayClass := IsObjectArrayClass h;
     IsReferenceClass := IsReferenceClass h;
     NumReferenceInstanceFields := NumReferenceInstanceFields h;
     NumReferenceStaticFields := NumReferenceStaticFields h;
     GetInstanceField := GetInstanceField h;
     GetStaticField := GetStaticField h;
     GetOffset := GetOffset h;
     GetLength := GetLength h;
     GetWithoutChecks := GetWithoutChecks h;
     IsMarked := IsMarked h;
     ReferenceReferentOffset := ReferenceReferentOffset h |}.

(** A hook that clears the slot at offset 8 of the object it is given. *)
Definition clearing_hook : Ref -> Heap -> Heap :=
  fun obj h => store_field h obj 8 NULL.

(** * Properties *)

(** ** The state after a list of visitor calls *)

Lemma visited_nil {V} (visitor : Visitor V) (st : State V) :
  visited visitor [] st = st.
Proof. destruct st; reflexivity. Qed.

Lemma visited_app {V} (visitor : Visitor V) (a b : list Call) (st : State V) :
  visited visitor (a ++ b) st = visited visitor b (visited visitor a st).
Proof.
  unfold visited, set_vs, replay; simpl.
  now rewrite fold_left_app.
Qed.

Lemma visited_cons {V} (visitor : Visitor V) (c : Call) (l : list Call)
      (st : State V) :
  visited visitor (c :: l) st
  = visited visitor l (set_vs (invoke visitor c) st).
Proof. reflexivity. Qed.

Lemma visited_ms {V} (visitor : Visitor V) calls (st : State V) :
  ms (visited visitor calls st) = ms st.
Proof. reflexivity. Qed.

Lemma visited_effects {V} (visitor : Visitor V) calls (st : State V) :
  effects (visited visitor calls st) = effects st.
Proof. reflexivity. Qed.

Lemma replay_recorder (calls log : list Call) :
  replay recorder calls log = log ++ calls.
Proof.
  revert log; induction calls as [|c calls IH]; intros log.
  - simpl. now rewrite app_nil_r.
  - change (replay recorder calls (invoke recorder c log) = log ++ c :: calls).
    rewrite IH. unfold invoke, recorder.
    destruct c; simpl. now rewrite <- app_assoc.
Qed.

(** ** Bits of a 32-bit word *)

Lemma bits_desc_S (n : nat) (r : Z) :
  bits_desc (S n) r
  = if Z.testbit r (Z.of_nat n) then Z.of_nat n :: bits_desc n r
    else bits_desc n r.
Proof.
  unfold bits_desc. rewrite seq_S, rev_app_distr. simpl.
  reflexivity.
Qed.

Lemma bits_desc_ext (n : nat) (r r' : Z) :
  (forall i, 0 <= i < Z.of_nat n -> Z.testbit r i = Z.testbit r' i) ->
  bits_desc n r = bits_desc n r'.
Proof.
  induction n as [|n IH]; intros Hbits; [reflexivity|].
  rewrite !bits_desc_S, IH by (intros; apply Hbits; lia).
  now rewrite (Hbits (Z.of_nat n)) by lia.
Qed.

Lemma bits_desc_zero (n : nat) : bits_desc n 0 = [].
Proof.
  induction n as [|n IH]; [reflexivity|].
  now rewrite bits_desc_S, Z.bits_0.
Qed.

Lemma bits_desc_length (n : nat) (r : Z) : (length (bits_desc n r) <= n)%nat.
Proof.
  induction n as [|n IH]; [simpl; lia|].
  rewrite bits_desc_S. destruct (Z.testbit r (Z.of_nat n)); simpl; lia.
Qed.

Lemma top_bit_split (n : Z) (r : Z) :
  0 <= n -> 0 <= r < 2 ^ (n + 1) ->
  (Z.testbit r n = true /\ 2 ^ n <= r) \/ (Z.testbit r n = false /\ r < 2 ^ n).
Proof.
  intros Hn Hr.
  assert (Hpow : 2 ^ (n + 1) = 2 * 2 ^ n) by (rewrite Z.pow_add_r; lia).
  assert (Hpos : 0 < 2 ^ n) by (apply Z.pow_pos_nonneg; lia).
  destruct (Z_lt_ge_dec r (2 ^ n)) as [Hlt|Hge].
  - right. split; [|exact Hlt].
    rewrite Z.testbit_false by lia.
    rewrite Z.div_small by lia. reflexivity.
  - left. split; [|lia].
    rewrite Z.testbit_true by lia.
    assert (r / 2 ^ n = 1) as ->; [|reflexivity].
    symmetry. apply Z.div_unique with (r := r - 2 ^ n); lia.
Qed.

(** One iteration of the fast path clears exactly the highest set bit. *)
Lemma clear_highest_bit (n r : Z) :
  0 <= n <= 31 -> 2 ^ n <= r < 2 ^ (n + 1) ->
  Z.land r (uint32_not (Z.shiftr CLASS_HIGH_BIT (CLZ r))) = r mod 2 ^ n.
Proof.
  intros Hn Hr.
  assert (Hlog : Z.log2 r = n) by (apply Z.log2_unique; lia).
  unfold CLZ, CLASS_HIGH_BIT, uint32_not. rewrite Hlog.
  assert (Hshift : Z.shiftr (2 ^ 31) (31 - n) = 2 ^ n).
  { rewrite Z.shiftr_div_pow2 by lia.
    rewrite <- Z.pow_sub_r by lia. f_equal. lia. }
  rewrite Hshift.
  apply Z.bits_inj'. intros i Hi.
  rewrite Z.land_spec.
  destruct (Z_lt_ge_dec i n) as [Hlt|Hge].
  - rewrite Z.mod_pow2_bits_low by lia.
    rewrite Z.mod_pow2_bits_low by lia.
    rewrite Z.lnot_spec by lia.
    rewrite Z.pow2_bits_eqb by lia.
    assert ((n =? i) = false) as -> by (apply Z.eqb_neq; lia).
    simpl. now rewrite andb_true_r.
  - rewrite (Z.mod_pow2_bits_high r n i) by lia.
    destruct (Z.eq_dec i n) as [->|Hne].
    + rewrite Z.mod_pow2_bits_low by lia.
      rewrite Z.lnot_spec by lia.
      rewrite Z.pow2_bits_eqb by lia.
      rewrite Z.eqb_refl. simpl. now rewrite andb_false_r.
    + assert (Z.testbit r i = false) as ->; [|reflexivity].
      apply Z.bits_above_log2; lia.
Qed.

Lemma clear_highest_bit_sub (n r : Z) :
  0 <= n <= 31 -> 2 ^ n <= r < 2 ^ (n + 1) ->
  Z.land r (uint32_not (Z.shiftr CLASS_HIGH_BIT (CLZ r))) = r - 2 ^ n.
Proof.
  intros Hn Hr. rewrite (clear_highest_bit Hn Hr).
  assert (Hpow : 2 ^ (n + 1) = 2 * 2 ^ n) by (rewrite Z.pow_add_r; lia).
  symmetry. apply Z.mod_unique with (q := 1); lia.
Qed.

(** ** The loops *)

Section Loops.
Variable cfg : Config.
Variable h : Heap.
Variable V : Type.
Variable visitor : Visitor V.

Local Abbreviation done calls st := (Ok tt (visited visitor calls st)).

Lemma call_visitor_eq (c : Call) (st : State V) :
  call_visitor visitor (holder c) (referent c) (offset c) (is_static_field c) st
  = done [c] st.
Proof. reflexivity. Qed.

Lemma for_range_calls (f : Z -> Call) (n : nat) (from : Z) (st : State V) :
  for_range from n
    (fun i => call_visitor visitor (holder (f i)) (referent (f i))
                           (offset (f i)) (is_static_field (f i))) st
  = done (map f (Zrange from n)) st.
Proof.
  revert from st. induction n as [|n IH]; intros from st; simpl.
  - unfold ret. now rewrite visited_nil.
  - unfold bind at 1. rewrite call_visitor_eq, IH.
    now rewrite visited_cons.
Qed.

Lemma bitmap_loop_eq (fuel : nat) (obj : Ref) (r : Z) (is_static : bool) :
  bitmap_loop cfg h visitor fuel obj r is_static
  = if r =? 0 then ret tt
    else match fuel with
         | O => out_of_fuel
         | S fuel' =>
             bind (call_visitor visitor obj
                     (GetFieldObject h obj (CLASS_OFFSET_FROM_CLZ cfg (CLZ r)))
                     (CLASS_OFFSET_FROM_CLZ cfg (CLZ r)) is_static)
                  (fun _ =>
                     bitmap_loop cfg h visitor fuel' obj
                       (Z.land r (uint32_not (Z.shiftr CLASS_HIGH_BIT (CLZ r))))
                       is_static)
         end.
Proof. destruct fuel; reflexivity. Qed.

(** The fast path on a word of [n] bits: it needs one unit of fuel per set
    bit, and with that much it calls the visitor once per set bit, highest
    bit first. *)
Lemma bitmap_loop_bits (obj : Ref) (is_static : bool) (n : nat) :
  (n <= 32)%nat ->
  forall (fuel : nat) (r : Z) (st : State V),
    0 <= r < 2 ^ Z.of_nat n ->
    bitmap_loop cfg h visitor fuel obj r is_static st
    = if (length (bits_desc n r) <=? fuel)%nat
      then done (map (bitmap_call cfg h obj is_static) (bits_desc n r)) st
      else OutOfFuel.
Proof.
  induction n as [|n IH]; intros Hn fuel r st Hr.
  - assert (r = 0) as -> by (simpl in Hr; lia).
    rewrite bitmap_loop_eq. simpl. unfold ret. now rewrite visited_nil.
  - rewrite bits_desc_S.
    replace (Z.of_nat (S n)) with (Z.of_nat n + 1) in Hr by lia.
    assert (Hpos : 0 < 2 ^ Z.of_nat n) by (apply Z.pow_pos_nonneg; lia).
    destruct (@top_bit_split (Z.of_nat n) r ltac:(lia) Hr) as [[Hb Hge]|[Hb Hlt]];
      rewrite Hb.
    + assert (Hlog : Z.log2 r = Z.of_nat n) by (apply Z.log2_unique; lia).
      rewrite bitmap_loop_eq.
      assert ((r =? 0) = false) as -> by (apply Z.eqb_neq; lia).
      destruct fuel as [|fuel]; [reflexivity|].
      unfold bind.
      assert (Hcall :
                call_visitor visitor obj
                  (GetFieldObject h obj (CLASS_OFFSET_FROM_CLZ cfg (CLZ r)))
                  (CLASS_OFFSET_FROM_CLZ cfg (CLZ r)) is_static st
                = done [bitmap_call cfg h obj is_static (Z.of_nat n)] st).
      { unfold bitmap_call, CLZ. rewrite Hlog. reflexivity. }
      rewrite Hcall.
      rewrite (@clear_highest_bit (Z.of_nat n) r) by lia.
      rewrite IH; [|lia|].
      2:{ apply Z.mod_pos_bound. exact Hpos. }
      rewrite (@bits_desc_ext n (r mod 2 ^ Z.of_nat n) r).
      2:{ intros i Hi. apply Z.mod_pow2_bits_low. lia. }
      simpl length. simpl Nat.leb.
      destruct (length (bits_desc n r) <=? fuel)%nat; [|reflexivity].
      simpl map. now rewrite visited_cons.
    + apply IH; lia.
Qed.

Lemma class_walk_eq (fuel : nat) (obj klass : Ref) (is_static : bool) :
  class_walk h visitor fuel obj klass is_static
  = if klass =? NULL then ret tt
    else match fuel with
         | O => out_of_fuel
         | S fuel' =>
             bind (visit_class_fields h visitor obj klass is_static)
                  (fun _ =>
                     class_walk h visitor fuel' obj
                       (if is_static then NULL else GetSuperClass h klass)
                       is_static)
         end.
Proof. destruct fuel; reflexivity. Qed.

Lemma visit_class_fields_calls (obj klass : Ref) (is_static : bool)
      (st : State V) :
  visit_class_fields h visitor obj klass is_static st
  = done (level_calls h obj is_static klass) st.
Proof.
  unfold visit_class_fields, for_upto, level_calls, indices.
  exact (for_range_calls (field_call h obj klass is_static) _ 0 st).
Qed.

(** The slow path on instance fields walks exactly the ancestors. *)
Lemma class_walk_instance (obj : Ref) (fuel : nat) :
  forall (klass : Ref) (st : State V),
    class_walk h visitor fuel obj klass false st
    = match ancestors h fuel klass with
      | Some chain => done (flat_map (level_calls h obj false) chain) st
      | None => OutOfFuel
      end.
Proof.
  induction fuel as [|fuel IH]; intros klass st;
    rewrite class_walk_eq; simpl ancestors;
    destruct (klass =? NULL).
  - unfold ret; simpl. now rewrite visited_nil.
  - reflexivity.
  - unfold ret; simpl. now rewrite visited_nil.
  - unfold bind. rewrite visit_class_fields_calls, IH.
    destruct (ancestors h fuel (GetSuperClass h klass)) as [chain|]; simpl;
      [|reflexivity].
    now rewrite visited_app.
Qed.

(** The slow path on static fields looks at one class only. *)
Lemma class_walk_static (obj klass : Ref) (fuel : nat) (st : State V) :
  class_walk h visitor fuel obj klass true st
  = if klass =? NULL then done [] st
    else match fuel with
         | O => OutOfFuel
         | S _ => done (level_calls h obj true klass) st
         end.
Proof.
  rewrite class_walk_eq.
  destruct (klass =? NULL).
  - unfold ret. now rewrite visited_nil.
  - destruct fuel as [|fuel]; [reflexivity|].
    unfold bind. rewrite visit_class_fields_calls, class_walk_eq.
    simpl. unfold ret. reflexivity.
Qed.

Lemma VisitObjectArrayReferences_calls (array : Ref) (st : State V) :
  VisitObjectArrayReferences cfg h visitor array st
  = done (array_calls cfg h array) st.
Proof.
  unfold VisitObjectArrayReferences, for_upto, array_calls, indices.
  exact (for_range_calls (element_call cfg h array) _ 0 st).
Qed.
End Loops.

(** ** The scanners as lists of visitor calls *)

Lemma is_uint32_spec (x : Z) : is_uint32 x = true -> uint32 x.
Proof. unfold is_uint32, uint32. lia. Qed.

Lemma bind_ok {S A B} (m : M S A) (k : A -> M S B) (s s' : S) (a : A) :
  m s = Ok a s' -> bind m k s = k a s'.
Proof. intros Hm. unfold bind. now rewrite Hm. Qed.

(** Run the first action of a sequence, given its result. *)
Ltac step_ok lem := rewrite (@bind_ok _ _ _ _ _ _ _ _ lem).

Section Entries.
Variable cfg : Config.
Variable h : Heap.
Variable V : Type.
Variable visitor : Visitor V.

Lemma DCHECK_pass (cond : bool) (st : State V) :
  negb (kIsDebugBuild cfg) || cond = true -> DCHECK cfg cond st = Ok tt st.
Proof.
  unfold DCHECK. destruct (kIsDebugBuild cfg), cond; simpl; intros H;
    try discriminate; reflexivity.
Qed.

Lemma VisitFieldsReferences_calls (fuel : nat) (obj : Ref) (r : Z)
      (is_static : bool) (st : State V) :
  uint32 r ->
  VisitFieldsReferences cfg h visitor fuel obj r is_static st
  = finish visitor (FieldsCalls cfg h fuel obj r is_static) st.
Proof.
  intros Hr. unfold VisitFieldsReferences, FieldsCalls.
  destruct (negb (r =? CLASS_WALK_SUPER cfg)).
  - rewrite (@bitmap_loop_bits cfg h V visitor obj is_static 32) by
      (try exact Hr; lia).
    unfold finish, bitmap_calls, popcount, set_bits_desc.
    generalize (bits_desc 32 r); intros bits.
    destruct (length bits <=? fuel)%nat; reflexivity.
  - destruct is_static.
    + rewrite class_walk_static.
      destruct (obj =? NULL); [reflexivity|].
      destruct fuel; reflexivity.
    + rewrite class_walk_instance.
      destruct (ancestors h fuel (GetClass h obj)); reflexivity.
Qed.

Lemma VisitInstanceFieldsReferences_calls (fuel : nat) (klass obj : Ref)
      (st : State V) :
  negb (kIsDebugBuild cfg) || negb (obj =? NULL) = true ->
  negb (kIsDebugBuild cfg) || negb (klass =? NULL) = true ->
  uint32 (GetReferenceInstanceOffsets h klass) ->
  VisitInstanceFieldsReferences cfg h visitor fuel klass obj st
  = finish visitor (FieldsCalls cfg h fuel obj (GetReferenceInstanceOffsets h klass)
                        false) st.
Proof.
  intros Hobj Hklass Hr. unfold VisitInstanceFieldsReferences.
  step_ok (@DCHECK_pass _ st Hobj).
  step_ok (@DCHECK_pass _ st Hklass).
  now apply VisitFieldsReferences_calls.
Qed.

Lemma VisitStaticFieldsReferences_calls (fuel : nat) (klass : Ref)
      (st : State V) :
  negb (kIsDebugBuild cfg) || negb (klass =? NULL) = true ->
  uint32 (GetReferenceStaticOffsets h klass) ->
  VisitStaticFieldsReferences cfg h visitor fuel klass st
  = finish visitor (FieldsCalls cfg h fuel klass (GetReferenceStaticOffsets h klass)
                        true) st.
Proof.
  intros Hklass Hr. unfold VisitStaticFieldsReferences.
  step_ok (@DCHECK_pass _ st Hklass).
  now apply VisitFieldsReferences_calls.
Qed.

Lemma VisitClassReferences_calls (fuel : nat) (klass obj : Ref)
      (st : State V) :
  negb (kIsDebugBuild cfg) || negb (obj =? NULL) = true ->
  negb (kIsDebugBuild cfg) || negb (klass =? NULL) = true ->
  uint32 (GetReferenceInstanceOffsets h klass) ->
  uint32 (GetReferenceStaticOffsets h obj) ->
  VisitClassReferences cfg h visitor fuel klass obj st
  = finish visitor (ClassCalls cfg h fuel klass obj) st.
Proof.
  intros Hobj Hklass Hri Hrs. unfold VisitClassReferences, ClassCalls, bind.
  rewrite VisitInstanceFieldsReferences_calls by assumption.
  destruct (FieldsCalls cfg h fuel obj (GetReferenceInstanceOffsets h klass)
                        false) as [a|]; simpl; [|reflexivity].
  rewrite VisitStaticFieldsReferences_calls by assumption.
  destruct (FieldsCalls cfg h fuel obj (GetReferenceStaticOffsets h obj) true)
    as [b|]; simpl; [|reflexivity].
  now rewrite visited_app.
Qed.

Lemma array_object_calls (obj : Ref) (st : State V) :
  bind (call_visitor visitor obj (GetClass h obj) (ClassOffset cfg) false)
       (fun _ => when (IsObjectArrayClass h (GetClass h obj))
                      (VisitObjectArrayReferences cfg h visitor obj)) st
  = Ok tt (visited visitor (ArrayObjectCalls cfg h obj) st).
Proof.
  unfold bind, ArrayObjectCalls, when.
  change (call_visitor visitor obj (GetClass h obj) (ClassOffset cfg) false st)
    with (Ok tt (visited visitor [class_slot_call cfg h obj] st)).
  destruct (IsObjectArrayClass h (GetClass h obj)).
  - rewrite VisitObjectArrayReferences_calls.
    now rewrite (visited_cons visitor (class_slot_call cfg h obj)).
  - reflexivity.
Qed.

Lemma dchecks_pass_parts (meta obj : Ref) :
  dchecks_pass cfg h meta obj = true ->
  negb (kIsDebugBuild cfg) || negb (obj =? NULL) = true
  /\ negb (kIsDebugBuild cfg) || negb (GetClass h obj =? NULL) = true
  /\ ((GetClass h obj =? meta) = true ->
      negb (kIsDebugBuild cfg) || (GetClass h (GetClass h obj) =? meta) = true).
Proof.
  unfold dchecks_pass. destruct (kIsDebugBuild cfg); simpl; [|auto].
  destruct (obj =? NULL); simpl; [discriminate|].
  destruct (GetClass h obj =? NULL); simpl; [discriminate|].
  destruct (GetClass h obj =? meta); simpl; intros H; repeat split; auto.
  discriminate.
Qed.

(** [VisitObjectReferences] makes the calls of [ObjectCalls] and changes
    nothing else. *)
Lemma VisitObjectReferences_calls (fuel : nat) (obj : Ref) (st : State V) :
  dchecks_pass cfg h (GetJavaLangClass h) obj = true ->
  wf_offsets h (GetJavaLangClass h) obj = true ->
  VisitObjectReferences cfg h visitor fuel obj st
  = finish visitor (ObjectCalls cfg h (GetJavaLangClass h) fuel obj) st.
Proof.
  intros Hd Hwf.
  destruct (dchecks_pass_parts _ _ Hd) as (Hobj & Hklass & Hmeta).
  unfold wf_offsets, classify in Hwf.
  unfold VisitObjectReferences, ObjectCalls, classify.
  step_ok (@DCHECK_pass _ st Hobj).
  step_ok (@DCHECK_pass _ st Hklass).
  step_ok (@DCHECK_pass _ st Hklass).
  destruct (GetClass h obj =? GetJavaLangClass h) eqn:Hk.
  - apply andb_prop in Hwf as [Hri Hrs].
    apply is_uint32_spec in Hri, Hrs.
    step_ok (@DCHECK_pass _ st (Hmeta eq_refl)).
    now apply VisitClassReferences_calls.
  - destruct (IsArrayClass h (GetClass h obj)).
    + apply array_object_calls.
    + apply is_uint32_spec in Hwf. unfold VisitOtherReferences.
      now apply VisitInstanceFieldsReferences_calls.
Qed.

(** [ScanObjectVisit] on an object that passes the debug checks: the same
    calls, the counter of its kind, and the hook for a reference object. *)
Lemma ScanObjectVisit_calls (fuel : nat) (obj : Ref) (st : State V) :
  dchecks_pass cfg h (java_lang_Class_ (ms st)) obj = true ->
  marked_ok cfg h obj = true ->
  wf_offsets h (java_lang_Class_ (ms st)) obj = true ->
  ScanObjectVisit cfg h visitor fuel obj st
  = match ObjectCalls cfg h (java_lang_Class_ (ms st)) fuel obj with
    | Some calls => Ok tt (scanned cfg h visitor obj calls st)
    | None => OutOfFuel
    end.
Proof.
  intros Hd Hm Hwf.
  destruct (dchecks_pass_parts _ _ Hd) as (Hobj & Hklass & Hmeta).
  unfold wf_offsets, classify in Hwf.
  unfold ScanObjectVisit, ObjectCalls, scanned, classify.
  step_ok (@DCHECK_pass _ st Hobj).
  assert (Hnofatal : (kIsDebugBuild cfg && negb (IsMarked h obj)) = false).
  { unfold marked_ok in Hm.
    destruct (kIsDebugBuild cfg), (IsMarked h obj); simpl in *; congruence. }
  rewrite Hnofatal. unfold when at 1.
  step_ok (eq_refl : ret tt st = Ok tt st).
  step_ok (@DCHECK_pass _ st Hklass).
  step_ok (eq_refl : gets (fun st => java_lang_Class_ (ms st)) st
                     = Ok (java_lang_Class_ (ms st)) st).
  unfold count_kind, delayed.
  destruct (GetClass h obj =? java_lang_Class_ (ms st)) eqn:Hk.
  - apply andb_prop in Hwf as [Hri Hrs].
    apply is_uint32_spec in Hri, Hrs.
    step_ok (@DCHECK_pass _ st (Hmeta eq_refl)).
    unfold when, bind at 1.
    destruct (kCountScannedTypes cfg); simpl;
      rewrite VisitClassReferences_calls by assumption;
      (destruct (ClassCalls cfg h fuel (GetClass h obj) obj); simpl;
       [|reflexivity]);
      unfold visited, set_vs, set_ms; simpl; now rewrite app_nil_r.
  - destruct (IsArrayClass h (GetClass h obj)).
    + unfold when at 1, bind at 1.
      destruct (kCountScannedTypes cfg); simpl;
        rewrite array_object_calls;
        unfold visited, set_vs, set_ms; simpl; now rewrite app_nil_r.
    + apply is_uint32_spec in Hwf.
      unfold when at 1, bind at 1, VisitOtherReferences.
      destruct (kCountScannedTypes cfg); simpl; unfold bind;
        rewrite VisitInstanceFieldsReferences_calls by assumption;
        (destruct (FieldsCalls cfg h fuel obj
                     (GetReferenceInstanceOffsets h (GetClass h obj)) false);
         simpl; [|reflexivity]);
        unfold when, DelayReferenceReferent, modify, ret;
        (destruct (IsReferenceClass h (GetClass h obj));
         unfold visited, set_vs, set_ms, emit; simpl;
         [reflexivity | now rewrite app_nil_r]).
Qed.
End Entries.

(** ** Facts about the expected calls *)

Lemma bits_desc_In (n : nat) (r b : Z) :
  In b (bits_desc n r) <-> 0 <= b < Z.of_nat n /\ Z.testbit r b = true.
Proof.
  induction n as [|n IH].
  - simpl. split; [tauto | lia].
  - rewrite bits_desc_S.
    destruct (Z.testbit r (Z.of_nat n)) eqn:Hb; simpl; rewrite ?IH.
    + split.
      * intros [<-|[Hlt Ht]]; split; auto; lia.
      * intros [Hlt Ht].
        destruct (Z.eq_dec b (Z.of_nat n)); [left; auto | right; split; auto; lia].
    + split.
      * intros [Hlt Ht]; split; auto; lia.
      * intros [Hlt Ht]. split; auto.
        destruct (Z.eq_dec b (Z.of_nat n)); [subst; congruence | lia].
Qed.

Lemma bits_desc_sorted (n : nat) (r : Z) : StronglySorted Z.gt (bits_desc n r).
Proof.
  induction n as [|n IH].
  - constructor.
  - rewrite bits_desc_S. destruct (Z.testbit r (Z.of_nat n)); [|exact IH].
    constructor; [exact IH|].
    apply Forall_forall. intros b Hb. apply bits_desc_In in Hb. lia.
Qed.

Lemma Zrange_seq (n : nat) (from : Z) :
  Zrange from n = map (fun k => from + Z.of_nat k) (seq 0 n).
Proof.
  revert from. induction n as [|n IH]; intros from; [reflexivity|].
  simpl. rewrite IH, <- seq_shift, map_map. f_equal; [lia|].
  apply map_ext. intros k. lia.
Qed.

Lemma indices_seq (bound : Z) :
  indices bound = map Z.of_nat (seq 0 (Z.to_nat bound)).
Proof. unfold indices. now rewrite Zrange_seq. Qed.

Lemma indices_length (bound : Z) : length (indices bound) = Z.to_nat bound.
Proof. now rewrite indices_seq, length_map, length_seq. Qed.

Lemma indices_In (bound i : Z) : In i (indices bound) <-> 0 <= i < bound.
Proof.
  rewrite indices_seq, in_map_iff. split.
  - intros (k & <- & Hk). apply in_seq in Hk. lia.
  - intros Hi. exists (Z.to_nat i). split; [lia|]. apply in_seq. lia.
Qed.

Lemma ancestors_chain (h : Heap) (fuel : nat) :
  forall (klass : Ref) (chain : list Ref),
    ancestors h fuel klass = Some chain -> AncestorChain h klass chain.
Proof.
  induction fuel as [|fuel IH]; intros klass chain; simpl;
    destruct (Z.eqb_spec klass NULL) as [->|Hnz]; intros Hc.
  - injection Hc as <-. constructor.
  - discriminate.
  - injection Hc as <-. constructor.
  - destruct (ancestors h fuel (GetSuperClass h klass)) as [rest|] eqn:Hrest;
      [|discriminate].
    injection Hc as <-. constructor; auto.
Qed.

Lemma chain_ancestors (h : Heap) (klass : Ref) (chain : list Ref) :
  AncestorChain h klass chain ->
  forall fuel, (length chain <= fuel)%nat -> ancestors h fuel klass = Some chain.
Proof.
  induction 1 as [|klass chain Hnz Hc IH]; intros fuel Hfuel.
  - destruct fuel; reflexivity.
  - destruct fuel as [|fuel]; [simpl in Hfuel; lia|].
    simpl. assert ((klass =? NULL) = false) as -> by now apply Z.eqb_neq.
    rewrite IH by (simpl in Hfuel; lia). reflexivity.
Qed.

Lemma Forall_map_calls {A} (f : A -> Call) (P : Call -> Prop) (l : list A) :
  (forall a, P (f a)) -> Forall P (map f l).
Proof.
  intros Hf. induction l as [|a l IH]; simpl; constructor; auto.
Qed.

Lemma FieldsCalls_flag (cfg : Config) (h : Heap) (fuel : nat) (obj : Ref)
      (r : Z) (is_static : bool) (calls : list Call) :
  FieldsCalls cfg h fuel obj r is_static = Some calls ->
  Forall (fun c => holder c = obj /\ is_static_field c = is_static) calls.
Proof.
  unfold FieldsCalls.
  destruct (negb (r =? CLASS_WALK_SUPER cfg)).
  - destruct (popcount r <=? fuel)%nat; [|discriminate].
    unfold bitmap_calls. generalize (set_bits_desc r) as bits. intros bits.
    intros [= <-]. apply Forall_map_calls. intros b. split; reflexivity.
  - destruct is_static.
    + destruct (obj =? NULL); [intros [= <-]; constructor|].
      destruct fuel; [discriminate|]. intros [= <-].
      apply Forall_map_calls. intros i. split; reflexivity.
    + destruct (ancestors h fuel (GetClass h obj)) as [chain|]; [|discriminate].
      simpl. intros [= <-]. apply Forall_forall. intros c Hc.
      apply in_flat_map in Hc as (klass & _ & Hc).
      apply in_map_iff in Hc as (i & <- & _). split; reflexivity.
Qed.

Lemma replay_logged {V} (v : Visitor V) (calls : list Call) (x : V)
      (log : list Call) :
  replay (logged v) calls (x, log) = (replay v calls x, log ++ calls).
Proof.
  revert x log. induction calls as [|c calls IH]; intros x log.
  - simpl. now rewrite app_nil_r.
  - change (replay (logged v) (c :: calls) (x, log))
      with (replay (logged v) calls (invoke (logged v) c (x, log))).
    unfold invoke at 1, logged at 2. simpl fst. simpl snd.
    rewrite IH. destruct c; simpl. now rewrite <- app_assoc.
Qed.

(** ** Scanners that leave the collector's members alone *)

Section KeepsMs.
Variable cfg : Config.
Variable h : Heap.
Variable V : Type.
Variable visitor : Visitor V.

Lemma keeps_ret {A} (a : A) : keeps_ms (ret a : M (State V) A).
Proof. intros st s' [= <-]. reflexivity. Qed.

Lemma keeps_out_of_fuel {A} : keeps_ms (out_of_fuel : M (State V) A).
Proof. intros st s' [=]. Qed.

Lemma keeps_bind {A B} (m : M (State V) A) (k : A -> M (State V) B) :
  keeps_ms m -> (forall a, keeps_ms (k a)) -> keeps_ms (bind m k).
Proof.
  intros Hm Hk st s'. unfold bind.
  destruct (m st) as [a s1|s1|] eqn:Hrun; intros Hfin.
  - rewrite (Hk a s1 s' Hfin). apply Hm. now rewrite Hrun.
  - apply Hm. now rewrite Hrun.
  - discriminate.
Qed.

Lemma keeps_when (b : bool) (m : M (State V) unit) :
  keeps_ms m -> keeps_ms (when b m).
Proof. destruct b; [auto | intros _; apply keeps_ret]. Qed.

Lemma keeps_call_visitor (obj ref : Ref) (off : MemberOffset) (s : bool) :
  keeps_ms (call_visitor visitor obj ref off s).
Proof. intros st s' [= <-]. reflexivity. Qed.

Lemma keeps_DCHECK (cond : bool) : keeps_ms (DCHECK cfg (V := V) cond).
Proof.
  unfold DCHECK. destruct (kIsDebugBuild cfg && negb cond).
  - intros st s' [= <-]. reflexivity.
  - apply keeps_ret.
Qed.

Lemma keeps_for_range (body : Z -> M (State V) unit) (n : nat) :
  (forall i, keeps_ms (body i)) -> forall from, keeps_ms (for_range from n body).
Proof.
  intros Hbody. induction n as [|n IH]; intros from; simpl.
  - apply keeps_ret.
  - apply keeps_bind; auto.
Qed.

Lemma keeps_bitmap_loop (obj : Ref) (is_static : bool) (fuel : nat) :
  forall r, keeps_ms (bitmap_loop cfg h visitor fuel obj r is_static).
Proof.
  induction fuel as [|fuel IH]; intros r; rewrite bitmap_loop_eq;
    destruct (r =? 0); try apply keeps_ret.
  - apply keeps_out_of_fuel.
  - apply keeps_bind; [apply keeps_call_visitor | intros _; apply IH].
Qed.

Lemma keeps_class_walk (obj : Ref) (is_static : bool) (fuel : nat) :
  forall klass, keeps_ms (class_walk h visitor fuel obj klass is_static).
Proof.
  induction fuel as [|fuel IH]; intros klass; rewrite class_walk_eq;
    destruct (klass =? NULL); try apply keeps_ret.
  - apply keeps_out_of_fuel.
  - apply keeps_bind; [|intros _; apply IH].
    unfold visit_class_fields, for_upto. apply keeps_for_range.
    intros i. apply keeps_call_visitor.
Qed.

Lemma keeps_VisitFieldsReferences (fuel : nat) (obj : Ref) (r : Z)
      (is_static : bool) :
  keeps_ms (VisitFieldsReferences cfg h visitor fuel obj r is_static).
Proof.
  unfold VisitFieldsReferences. destruct (negb (r =? CLASS_WALK_SUPER cfg)).
  - apply keeps_bitmap_loop.
  - apply keeps_class_walk.
Qed.

Lemma keeps_VisitInstanceFieldsReferences (fuel : nat) (klass obj : Ref) :
  keeps_ms (VisitInstanceFieldsReferences cfg h visitor fuel klass obj).
Proof.
  unfold VisitInstanceFieldsReferences.
  repeat (apply keeps_bind; [apply keeps_DCHECK | intros _]).
  apply keeps_VisitFieldsReferences.
Qed.

Lemma keeps_VisitClassReferences (fuel : nat) (klass obj : Ref) :
  keeps_ms (VisitClassReferences cfg h visitor fuel klass obj).
Proof.
  unfold VisitClassReferences.
  apply keeps_bind; [apply keeps_VisitInstanceFieldsReferences | intros _].
  unfold VisitStaticFieldsReferences.
  apply keeps_bind; [apply keeps_DCHECK | intros _].
  apply keeps_VisitFieldsReferences.
Qed.

Lemma keeps_VisitObjectArrayReferences (array : Ref) :
  keeps_ms (VisitObjectArrayReferences cfg h visitor array).
Proof.
  unfold VisitObjectArrayReferences, for_upto. apply keeps_for_range.
  intros i. apply keeps_call_visitor.
Qed.

Lemma keeps_VisitObjectReferences (fuel : nat) (obj : Ref) :
  keeps_ms (VisitObjectReferences cfg h visitor fuel obj).
Proof.
  unfold VisitObjectReferences.
  repeat (apply keeps_bind; [apply keeps_DCHECK | intros _]).
  destruct (GetClass h obj =? GetJavaLangClass h).
  - apply keeps_bind; [apply keeps_DCHECK | intros _].
    apply keeps_VisitClassReferences.
  - destruct (IsArrayClass h (GetClass h obj)).
    + apply keeps_bind; [apply keeps_call_visitor | intros _].
      apply keeps_when. apply keeps_VisitObjectArrayReferences.
    + apply keeps_VisitInstanceFieldsReferences.
Qed.
End KeepsMs.


(** ** The field scanner *)

(** C3.  On a 32-bit layout word other than the walk-super sentinel,
    [VisitFieldsReferences] calls the visitor exactly once for every set bit
    of the word, from the most significant set bit down to the least
    significant one.  For the bit at position [b] the offset is the linear
    image of its distance [31 - b] from the top bit, the referent is the
    reference read from the object at that offset, and the static flag is
    the one the caller passed. *)
Theorem VisitFieldsReferences_bitmap_path :
  forall (cfg : Config) (h : Heap) (V : Type) (visitor : Visitor V)
         (fuel : nat) (obj : Ref) (ref_offsets : Z) (is_static : bool)
         (st : State V),
    uint32 ref_offsets ->
    ref_offsets <> CLASS_WALK_SUPER cfg ->
    (popcount ref_offsets <= fuel)%nat ->
    VisitFieldsReferences cfg h visitor fuel obj ref_offsets is_static st
    = Ok tt
         (visited visitor
            (map (fun b =>
                    let field_offset := CLASS_OFFSET_FROM_CLZ cfg (31 - b) in
                    mkCall obj (GetFieldObject h obj field_offset) field_offset
                           is_static)
                 (set_bits_desc ref_offsets))
            st)
    /\ (forall b, In b (set_bits_desc ref_offsets)
                  <-> 0 <= b < 32 /\ Z.testbit ref_offsets b = true)
    /\ StronglySorted Z.gt (set_bits_desc ref_offsets).
Proof.
  intros cfg h V visitor fuel obj r is_static st Hr Hns Hfuel.
  split; [|split].
  - rewrite VisitFieldsReferences_calls by exact Hr.
    unfold FieldsCalls.
    assert ((r =? CLASS_WALK_SUPER cfg) = false) as -> by now apply Z.eqb_neq.
    cbn [negb].
    assert ((popcount r <=? fuel)%nat = true) as -> by now apply Nat.leb_le.
    reflexivity.
  - intros b. unfold set_bits_desc. now rewrite bits_desc_In.
  - apply bits_desc_sorted.
Qed.

Lemma replay_counting (calls : list Call) (n : nat) :
  replay counting_visitor calls n = (n + length calls)%nat.
Proof.
  revert n. induction calls as [|c calls IH]; intros n.
  - simpl. lia.
  - change (replay counting_visitor (c :: calls) n)
      with (replay counting_visitor calls (S n)).
    rewrite IH. simpl. lia.
Qed.

(** C9.  The fast-path loop terminates on every 32-bit layout word other
    than the sentinel.  On such a word [VisitFieldsReferences] is the loop;
    the loop exits on the word zero; an iteration on a non-zero 32-bit word
    calls the visitor on the slot of the most significant set bit and goes
    on with that bit, and no other, cleared, so the word strictly decreases
    and stays a non-negative 32-bit word.  The loop therefore runs once per
    set bit, which is at most 32 times: that much fuel is enough, less than
    the number of set bits is not, and the visitor is called as many times
    as there are set bits. *)
Theorem bitmap_loop_terminates :
  forall (cfg : Config) (h : Heap) (V : Type) (visitor : Visitor V)
         (obj : Ref) (ref_offsets : Z) (is_static : bool) (st : State V),
    uint32 ref_offsets ->
    ref_offsets <> CLASS_WALK_SUPER cfg ->
    (forall w : Z,
        uint32 w -> w <> 0 ->
        let next :=
          Z.land w (uint32_not (Z.shiftr CLASS_HIGH_BIT (CLZ w))) in
        Z.testbit w (Z.log2 w) = true
        /\ (forall i, Z.log2 w < i -> Z.testbit w i = false)
        /\ (forall i, 0 <= i ->
                      Z.testbit next i
                      = Z.testbit w i && negb (i =? Z.log2 w))
        /\ next = w - 2 ^ Z.log2 w
        /\ 0 <= next < w)
    /\ (popcount ref_offsets <= 32)%nat
    /\ (forall fuel, (popcount ref_offsets <= fuel)%nat ->
                     exists st',
                       VisitFieldsReferences cfg h visitor fuel obj ref_offsets
                                             is_static st = Ok tt st')
    /\ (forall fuel, (fuel < popcount ref_offsets)%nat ->
                     VisitFieldsReferences cfg h visitor fuel obj ref_offsets
                                           is_static st = OutOfFuel)
    /\ (forall (fuel : nat) (st0 : State V),
           VisitFieldsReferences cfg h visitor fuel obj ref_offsets is_static st0
           = bitmap_loop cfg h visitor fuel obj ref_offsets is_static st0)
    /\ (forall (fuel : nat) (st0 : State V),
           bitmap_loop cfg h visitor fuel obj 0 is_static st0 = Ok tt st0)
    /\ (forall (w : Z) (fuel : nat) (st0 : State V),
           uint32 w -> w <> 0 ->
           let field_offset := CLASS_OFFSET_FROM_CLZ cfg (31 - Z.log2 w) in
           bitmap_loop cfg h visitor (S fuel) obj w is_static st0
           = bitmap_loop cfg h visitor fuel obj (w - 2 ^ Z.log2 w) is_static
               (set_vs (visitor obj (GetFieldObject h obj field_offset)
                                field_offset is_static) st0)
           /\ uint32 (w - 2 ^ Z.log2 w))
    /\ (forall n : nat,
           VisitFieldsReferences cfg h counting_visitor 32 obj ref_offsets
                                 is_static
                                 {| ms := ms st; effects := effects st; vs := n |}
           = Ok tt {| ms := ms st; effects := effects st;
                      vs := (n + popcount ref_offsets)%nat |}).
Proof.
  intros cfg h V visitor obj r is_static st Hr Hns.
  assert (Hsent : (r =? CLASS_WALK_SUPER cfg) = false) by now apply Z.eqb_neq.
  assert (Hstep : forall w : Z,
             uint32 w -> w <> 0 ->
             Z.log2 w < 32 /\ 0 <= Z.log2 w
             /\ 2 ^ Z.log2 w <= w < 2 ^ (Z.log2 w + 1)).
  { intros w Hw Hnz. unfold uint32 in Hw.
    assert (Hpos : 0 < w) by lia.
    pose proof (Z.log2_spec w Hpos) as Hspec.
    pose proof (Z.log2_nonneg w) as Hnonneg.
    replace (Z.succ (Z.log2 w)) with (Z.log2 w + 1) in Hspec by lia.
    split; [apply Z.log2_lt_pow2; lia|]. split; [exact Hnonneg|exact Hspec]. }
  split; [|split; [|split; [|split; [|split; [|split; [|split]]]]]].
  - clear r Hr Hns Hsent. intros r Hr Hnz next.
    destruct (Hstep r Hr Hnz) as (Hlt & Hnonneg & Hspec). unfold uint32 in Hr.
    assert (Hnext : next = r - 2 ^ Z.log2 r).
    { subst next. apply clear_highest_bit_sub; lia. }
    assert (Hmod : next = r mod 2 ^ Z.log2 r).
    { subst next. apply clear_highest_bit; lia. }
    split; [apply Z.bit_log2; lia|].
    split; [intros i Hi; apply Z.bits_above_log2; lia|].
    split; [|split; [exact Hnext|lia]].
    intros i Hi. rewrite Hmod.
    destruct (Z_lt_ge_dec i (Z.log2 r)) as [Hlow|Hhigh].
    + rewrite Z.mod_pow2_bits_low by lia.
      assert ((i =? Z.log2 r) = false) as -> by (apply Z.eqb_neq; lia).
      simpl. now rewrite andb_true_r.
    + rewrite Z.mod_pow2_bits_high by lia.
      destruct (Z.eqb_spec i (Z.log2 r)) as [->|Hne].
      * simpl. now rewrite andb_false_r.
      * rewrite Z.bits_above_log2 by lia. reflexivity.
  - apply bits_desc_length.
  - intros fuel Hfuel. rewrite VisitFieldsReferences_calls by exact Hr.
    unfold FieldsCalls. rewrite Hsent. cbn [negb].
    assert ((popcount r <=? fuel)%nat = true) as -> by now apply Nat.leb_le.
    eexists. reflexivity.
  - intros fuel Hfuel. rewrite VisitFieldsReferences_calls by exact Hr.
    unfold FieldsCalls. rewrite Hsent. cbn [negb].
    assert ((popcount r <=? fuel)%nat = false) as ->
        by (apply Nat.leb_gt; exact Hfuel).
    reflexivity.
  - intros fuel st0. unfold VisitFieldsReferences. rewrite Hsent. reflexivity.
  - intros fuel st0. rewrite bitmap_loop_eq. reflexivity.
  - intros w fuel st0 Hw Hnz field_offset.
    destruct (Hstep w Hw Hnz) as (Hlt & Hnonneg & Hspec). unfold uint32 in Hw.
    split; [|unfold uint32; lia].
    rewrite bitmap_loop_eq.
    assert ((w =? 0) = false) as -> by now apply Z.eqb_neq.
    rewrite (@clear_highest_bit_sub (Z.log2 w) w) by lia.
    reflexivity.
  - intros n. rewrite VisitFieldsReferences_calls by exact Hr.
    unfold FieldsCalls. rewrite Hsent. cbn [negb].
    assert ((popcount r <=? 32)%nat = true) as ->
        by (apply Nat.leb_le; apply bits_desc_length).
    unfold finish, visited, set_vs. cbn [ms effects vs].
    rewrite replay_counting. unfold bitmap_calls, popcount.
    now rewrite length_map.
Qed.

(** C4.  On the walk-super sentinel, in instance mode
    [VisitFieldsReferences] goes through the chain of classes from the
    object's exact class up to the class without superclass and, at each
    of them, calls the visitor on that class's declared reference instance
    fields in index order.  In static mode it looks only at the class the
    object itself is ([obj->AsClass()]): it calls the visitor on that
    class's static reference fields in index order and visits no
    superclass. *)
Theorem VisitFieldsReferences_walk_super :
  forall (cfg : Config) (h : Heap) (V : Type) (visitor : Visitor V)
         (fuel : nat) (obj : Ref) (chain : list Ref) (st : State V),
    ancestors h fuel (GetClass h obj) = Some chain ->
    (1 <= fuel)%nat ->
    AncestorChain h (GetClass h obj) chain
    /\ VisitFieldsReferences cfg h visitor fuel obj (CLASS_WALK_SUPER cfg) false st
       = Ok tt
            (visited visitor
               (flat_map
                  (fun klass =>
                     map (fun i =>
                            let field := GetInstanceField h klass i in
                            mkCall obj (GetFieldObject h obj (GetOffset h field))
                                   (GetOffset h field) false)
                         (indices (NumReferenceInstanceFields h klass)))
                  chain)
               st)
    /\ VisitFieldsReferences cfg h visitor fuel obj (CLASS_WALK_SUPER cfg) true st
       = Ok tt
            (visited visitor
               (if obj =? NULL then []
                else map (fun i =>
                            let field := GetStaticField h obj i in
                            mkCall obj (GetFieldObject h obj (GetOffset h field))
                                   (GetOffset h field) true)
                         (indices (NumReferenceStaticFields h obj)))
               st).
Proof.
  intros cfg h V visitor fuel obj chain st Hchain Hfuel.
  split; [now apply ancestors_chain with (fuel := fuel)|].
  unfold VisitFieldsReferences. rewrite Z.eqb_refl. cbn [negb].
  split.
  - rewrite class_walk_instance, Hchain. reflexivity.
  - rewrite class_walk_static.
    destruct (obj =? NULL); [reflexivity|].
    destruct fuel; [lia|reflexivity].
Qed.

(** ** The object scanner *)

(** C5.  For an array object [ScanObjectVisit] calls the visitor once on the
    class-pointer slot, with the static flag false.  If the array is an
    object array of length [N], [N] more calls follow, one per element, in
    ascending index order, element [i] at offset
    [i * width + dataOffset] with the static flag false: [N + 1] calls in
    total.  The object passes the debug checks and the array lies inside
    the address space. *)
Theorem ScanObjectVisit_array :
  forall (cfg : Config) (h : Heap) (V : Type) (visitor : Visitor V)
         (fuel : nat) (obj : Ref) (st : State V),
    dchecks_pass cfg h (java_lang_Class_ (ms st)) obj = true ->
    marked_ok cfg h obj = true ->
    GetClass h obj <> java_lang_Class_ (ms st) ->
    IsArrayClass h (GetClass h obj) = true ->
    array_fits cfg h obj = true ->
    exists calls : list Call,
      ScanObjectVisit cfg h visitor fuel obj st
      = Ok tt (scanned cfg h visitor obj calls st)
      /\ vs (scanned cfg h visitor obj calls st) = replay visitor calls (vs st)
      /\ calls
         = mkCall obj (GetClass h obj) (ClassOffset cfg) false
           :: (if IsObjectArrayClass h (GetClass h obj)
               then map (fun i =>
                           mkCall obj (GetWithoutChecks h obj i)
                                  (i * sizeof_reference cfg
                                   + DataOffset cfg (sizeof_reference cfg))
                                  false)
                        (indices (GetLength h obj))
               else [])
      /\ (IsObjectArrayClass h (GetClass h obj) = true ->
          length calls = S (Z.to_nat (GetLength h obj))).
Proof.
  intros cfg h V visitor fuel obj st Hd Hm Hmeta Harr Hfits.
  assert (Hk : (GetClass h obj =? java_lang_Class_ (ms st)) = false)
    by now apply Z.eqb_neq.
  assert (Hkind : classify h (java_lang_Class_ (ms st)) obj = KindArray).
  { unfold classify. now rewrite Hk, Harr. }
  assert (Hwf : wf_offsets h (java_lang_Class_ (ms st)) obj = true).
  { unfold wf_offsets. now rewrite Hkind. }
  exists (ArrayObjectCalls cfg h obj).
  split; [|split; [reflexivity|]].
  - rewrite ScanObjectVisit_calls by assumption.
    unfold ObjectCalls. now rewrite Hkind.
  - assert (Hcalls :
              array_calls cfg h obj
              = map (fun i =>
                       mkCall obj (GetWithoutChecks h obj i)
                              (i * sizeof_reference cfg
                               + DataOffset cfg (sizeof_reference cfg))
                              false)
                    (indices (GetLength h obj))).
    { unfold array_calls. apply map_ext_in. intros i Hi.
      apply indices_In in Hi.
      unfold element_call, element_offset, to_size_t. f_equal.
      unfold array_fits in Hfits.
      apply andb_prop in Hfits as [Hfits Hend].
      apply andb_prop in Hfits as [Hw Hdata].
      apply Z.mod_small. nia. }
    unfold ArrayObjectCalls, class_slot_call. rewrite Hcalls.
    split; [reflexivity|].
    intros ->. simpl. now rewrite length_map, indices_length.
Qed.

(** C6.  For an object whose class is the meta-class, [ScanObjectVisit]
    makes the calls of the field scanner in instance mode on the object,
    all with the static flag false, followed by the calls of the field
    scanner in static mode on the object taken as a class, all with the
    static flag true: each group once, and nothing else. *)
Theorem ScanObjectVisit_class_object :
  forall (cfg : Config) (h : Heap) (V : Type) (visitor : Visitor V)
         (fuel : nat) (obj : Ref) (st : State V)
         (instance_calls static_calls : list Call),
    dchecks_pass cfg h (java_lang_Class_ (ms st)) obj = true ->
    marked_ok cfg h obj = true ->
    wf_offsets h (java_lang_Class_ (ms st)) obj = true ->
    GetClass h obj = java_lang_Class_ (ms st) ->
    FieldsCalls cfg h fuel obj
                (GetReferenceInstanceOffsets h (GetClass h obj)) false
    = Some instance_calls ->
    FieldsCalls cfg h fuel obj (GetReferenceStaticOffsets h obj) true
    = Some static_calls ->
    ScanObjectVisit cfg h visitor fuel obj st
    = Ok tt (scanned cfg h visitor obj (instance_calls ++ static_calls) st)
    /\ vs (scanned cfg h visitor obj (instance_calls ++ static_calls) st)
       = replay visitor static_calls (replay visitor instance_calls (vs st))
    /\ (forall st0 : State V,
           VisitFieldsReferences cfg h visitor fuel obj
             (GetReferenceInstanceOffsets h (GetClass h obj)) false st0
           = Ok tt (visited visitor instance_calls st0))
    /\ (forall st0 : State V,
           VisitFieldsReferences cfg h visitor fuel obj
             (GetReferenceStaticOffsets h obj) true st0
           = Ok tt (visited visitor static_calls st0))
    /\ Forall (fun c => holder c = obj /\ is_static_field c = false)
              instance_calls
    /\ Forall (fun c => holder c = obj /\ is_static_field c = true)
              static_calls.
Proof.
  intros cfg h V visitor fuel obj st inst stat Hd Hm Hwf Hmeta Hinst Hstat.
  assert (Hk : (GetClass h obj =? java_lang_Class_ (ms st)) = true)
    by now apply Z.eqb_eq.
  assert (Hkind : classify h (java_lang_Class_ (ms st)) obj = KindClass).
  { unfold classify. now rewrite Hk. }
  pose proof Hwf as Hwf'. unfold wf_offsets in Hwf'. rewrite Hkind in Hwf'.
  apply andb_prop in Hwf' as [Hri Hrs]. apply is_uint32_spec in Hri, Hrs.
  split; [|split; [|split; [|split; [|split]]]].
  - rewrite ScanObjectVisit_calls by assumption.
    unfold ObjectCalls, ClassCalls. now rewrite Hkind, Hinst, Hstat.
  - unfold scanned, replay. simpl. now rewrite fold_left_app.
  - intros st0. rewrite VisitFieldsReferences_calls by exact Hri.
    now rewrite Hinst.
  - intros st0. rewrite VisitFieldsReferences_calls by exact Hrs.
    now rewrite Hstat.
  - exact (FieldsCalls_flag _ _ _ _ _ _ Hinst).
  - exact (FieldsCalls_flag _ _ _ _ _ _ Hstat).
Qed.

(** C7.  In a debug build, [ScanObjectVisit] on an object that is not
    marked dumps the heap spaces, logs the fatal message and aborts: the
    visitor is never called, no counter moves and the hook is not
    called. *)
Theorem ScanObjectVisit_unmarked_aborts :
  forall (cfg : Config) (h : Heap) (V : Type) (visitor : Visitor V)
         (fuel : nat) (obj : Ref) (st : State V),
    kIsDebugBuild cfg = true ->
    obj <> NULL ->
    IsMarked h obj = false ->
    ScanObjectVisit cfg h visitor fuel obj st
    = Aborted {| ms := ms st;
                 effects := effects st ++ [EvDumpSpaces; EvFatalUnmarked obj];
                 vs := vs st |}.
Proof.
  intros cfg h V visitor fuel obj st Hdebug Hobj Hunmarked.
  unfold ScanObjectVisit.
  assert (Hnn : negb (kIsDebugBuild cfg) || negb (obj =? NULL) = true).
  { assert ((obj =? NULL) = false) as -> by now apply Z.eqb_neq.
    apply orb_true_r. }
  step_ok (@DCHECK_pass cfg V _ st Hnn).
  rewrite Hdebug, Hunmarked. unfold bind at 1. simpl.
  unfold emit; simpl. now rewrite <- app_assoc.
Qed.

(** C10.  With scan-type counting enabled, a call of [ScanObjectVisit] on
    an object that passes the debug checks adds one to exactly one of
    [class_count_], [array_count_] and [other_count_], the one of the
    object's kind, and leaves the other two as they were; every object has
    exactly one kind.  The addition is that of a [size_t]: the new value is
    the old one plus one, modulo two to the width of [size_t], which is the
    old one plus one unless the counter was at its maximum.
    [VisitObjectReferences] leaves the collector's members, the counters
    among them, as they were, however it ends. *)
Theorem scan_counters :
  forall (cfg : Config) (h : Heap) (V : Type) (visitor : Visitor V)
         (fuel : nat) (obj : Ref) (st : State V) (calls : list Call),
    kCountScannedTypes cfg = true ->
    dchecks_pass cfg h (java_lang_Class_ (ms st)) obj = true ->
    marked_ok cfg h obj = true ->
    wf_offsets h (java_lang_Class_ (ms st)) obj = true ->
    ObjectCalls cfg h (java_lang_Class_ (ms st)) fuel obj = Some calls ->
    (exists st' : State V,
        ScanObjectVisit cfg h visitor fuel obj st = Ok tt st'
        /\ java_lang_Class_ (ms st') = java_lang_Class_ (ms st)
        /\ match classify h (java_lang_Class_ (ms st)) obj with
           | KindClass =>
               class_count_ (ms st')
               = (class_count_ (ms st) + 1) mod 2 ^ size_t_bits cfg
               /\ (0 <= class_count_ (ms st) < 2 ^ size_t_bits cfg - 1 ->
                   class_count_ (ms st') = class_count_ (ms st) + 1)
               /\ array_count_ (ms st') = array_count_ (ms st)
               /\ other_count_ (ms st') = other_count_ (ms st)
           | KindArray =>
               class_count_ (ms st') = class_count_ (ms st)
               /\ array_count_ (ms st')
                  = (array_count_ (ms st) + 1) mod 2 ^ size_t_bits cfg
               /\ (0 <= array_count_ (ms st) < 2 ^ size_t_bits cfg - 1 ->
                   array_count_ (ms st') = array_count_ (ms st) + 1)
               /\ other_count_ (ms st') = other_count_ (ms st)
           | KindOther =>
               class_count_ (ms st') = class_count_ (ms st)
               /\ array_count_ (ms st') = array_count_ (ms st)
               /\ other_count_ (ms st')
                  = (other_count_ (ms st) + 1) mod 2 ^ size_t_bits cfg
               /\ (0 <= other_count_ (ms st) < 2 ^ size_t_bits cfg - 1 ->
                   other_count_ (ms st') = other_count_ (ms st) + 1)
           end)
    /\ (forall (fuel0 : nat) (obj0 : Ref) (st0 s' : State V),
           final_state (VisitObjectReferences cfg h visitor fuel0 obj0 st0)
           = Some s' ->
           ms s' = ms st0).
Proof.
  intros cfg h V visitor fuel obj st calls Hcount Hd Hm Hwf Hcalls.
  assert (Hincr : forall c, 0 <= c < 2 ^ size_t_bits cfg - 1 ->
                            (c + 1) mod 2 ^ size_t_bits cfg = c + 1)
    by (intros c Hc; apply Z.mod_small; lia).
  split.
  - exists (scanned cfg h visitor obj calls st).
    split; [rewrite ScanObjectVisit_calls by assumption; now rewrite Hcalls|].
    unfold scanned, count_kind. rewrite Hcount. cbn [ms].
    destruct (classify h (java_lang_Class_ (ms st)) obj);
      unfold incr_class_count, incr_array_count, incr_other_count, incr,
             to_size_t;
      cbn [java_lang_Class_ class_count_ array_count_ other_count_];
      repeat split; auto.
  - intros fuel0 obj0 st0 s'. apply keeps_VisitObjectReferences.
Qed.

(** *** The scanner over a changing heap against the scanner over a fixed
    one *)

Section Simulation.
Variable cfg : Config.
Variable V : Type.
Variable visitor : Visitor (Heap * V).
Variable hook : Ref -> Heap -> Heap.
Variable h : Heap.
Hypothesis visitor_keeps : keeps_heap visitor.

Local Abbreviation Scan := (M (State (Heap * V))).

Lemma simulates_same {A} (m : Scan A) :
  (forall st, fst (vs st) = h ->
              match m st with
              | Ok _ s' => fst (vs s') = h
              | Aborted s' => fst (vs s') = h
              | OutOfFuel => True
              end) ->
  simulates h m m.
Proof. intros Hm st Hst. split; [reflexivity | now apply Hm]. Qed.

Lemma simulates_ret {A} (a : A) : simulates h (ret a : Scan A) (ret a).
Proof. apply simulates_same. intros st Hst. exact Hst. Qed.

Lemma simulates_out_of_fuel {A} :
  simulates h (out_of_fuel : Scan A) out_of_fuel.
Proof. apply simulates_same. intros st Hst. exact I. Qed.

Lemma simulates_bind {A B} (mt m : Scan A) (kt k : A -> Scan B) :
  simulates h mt m -> (forall a, simulates h (kt a) (k a)) ->
  simulates h (bind mt kt) (bind m k).
Proof.
  intros Hm Hk st Hst. unfold bind.
  destruct (Hm st Hst) as [Heq Hheap]. rewrite Heq.
  destruct (m st) as [a s1|s1|]; [|now split|now split].
  exact (Hk a s1 Hheap).
Qed.

Lemma simulates_read {A B} (f : Heap -> A) (kt : A -> Scan B) (m : Scan B) :
  simulates h (kt (f h)) m -> simulates h (bind (Threaded.read f) kt) m.
Proof.
  intros Hk st Hst. unfold bind, Threaded.read, gets. rewrite Hst.
  exact (Hk st Hst).
Qed.

Lemma simulates_ret_bind {A B} (a : A) (kt : A -> Scan B) (m : Scan B) :
  simulates h (kt a) m -> simulates h (bind (ret a) kt) m.
Proof. intros Hk st Hst. exact (Hk st Hst). Qed.

Lemma simulates_when (b : bool) (mt m : Scan unit) :
  simulates h mt m -> simulates h (when b mt) (when b m).
Proof. destruct b; [auto | intros _; apply simulates_ret]. Qed.

Lemma simulates_DCHECK (cond : bool) :
  simulates h (DCHECK cfg cond : Scan unit) (DCHECK cfg cond).
Proof.
  apply simulates_same. intros st Hst. unfold DCHECK.
  destruct (kIsDebugBuild cfg && negb cond); exact Hst.
Qed.

Lemma simulates_call_visitor (obj ref : Ref) (off : MemberOffset) (s : bool) :
  simulates h (call_visitor visitor obj ref off s)
            (call_visitor visitor obj ref off s).
Proof.
  apply simulates_same. intros st Hst. simpl.
  now rewrite visitor_keeps.
Qed.

Lemma simulates_count (b : bool) (f : MarkSweep -> MarkSweep) :
  simulates h (when b (modify (set_ms f)) : Scan unit)
            (when b (modify (set_ms f))).
Proof. apply simulates_same. intros st Hst. destruct b; exact Hst. Qed.

Lemma simulates_fatal (obj : Ref) :
  simulates h (bind (@DumpSpaces (Heap * V))
                    (fun _ => @LOG_FATAL_unmarked (Heap * V) obj))
            (bind (@DumpSpaces (Heap * V))
                  (fun _ => @LOG_FATAL_unmarked (Heap * V) obj)).
Proof. apply simulates_same. intros st Hst. exact Hst. Qed.

Lemma simulates_for_range (bt b : Z -> Scan unit) (n : nat) :
  (forall i, simulates h (bt i) (b i)) ->
  forall from, simulates h (for_range from n bt) (for_range from n b).
Proof.
  intros Hb. induction n as [|n IH]; intros from; simpl.
  - apply simulates_ret.
  - apply simulates_bind; auto.
Qed.

Lemma threaded_bitmap_loop_eq (fuel : nat) (obj : Ref) (r : Z)
      (is_static : bool) :
  Threaded.bitmap_loop cfg visitor fuel obj r is_static
  = if r =? 0 then ret tt
    else match fuel with
         | O => out_of_fuel
         | S fuel' =>
             bind (Threaded.read
                     (fun hp => GetFieldObject hp obj
                                  (CLASS_OFFSET_FROM_CLZ cfg (CLZ r))))
                  (fun ref =>
                     bind (call_visitor visitor obj ref
                             (CLASS_OFFSET_FROM_CLZ cfg (CLZ r)) is_static)
                          (fun _ =>
                             Threaded.bitmap_loop cfg visitor fuel' obj
                               (Z.land r
                                  (uint32_not
                                     (Z.shiftr CLASS_HIGH_BIT (CLZ r))))
                               is_static))
         end.
Proof. destruct fuel; reflexivity. Qed.

Lemma simulates_bitmap_loop (obj : Ref) (is_static : bool) (fuel : nat) :
  forall r,
    simulates h (Threaded.bitmap_loop cfg visitor fuel obj r is_static)
              (bitmap_loop cfg h visitor fuel obj r is_static).
Proof.
  induction fuel as [|fuel IH]; intros r;
    rewrite threaded_bitmap_loop_eq, bitmap_loop_eq;
    destruct (r =? 0); try apply simulates_ret.
  - apply simulates_out_of_fuel.
  - apply simulates_read. apply simulates_bind.
    + apply simulates_call_visitor.
    + intros _. apply IH.
Qed.

Lemma simulates_visit_class_fields (obj klass : Ref) (is_static : bool) :
  simulates h (Threaded.visit_class_fields visitor obj klass is_static)
            (visit_class_fields h visitor obj klass is_static).
Proof.
  unfold Threaded.visit_class_fields, visit_class_fields, for_upto.
  apply simulates_read. apply simulates_for_range. intros i.
  apply simulates_read. apply simulates_read. apply simulates_read.
  apply simulates_call_visitor.
Qed.

Lemma threaded_class_walk_eq (fuel : nat) (obj klass : Ref)
      (is_static : bool) :
  Threaded.class_walk visitor fuel obj klass is_static
  = if klass =? NULL then ret tt
    else match fuel with
         | O => out_of_fuel
         | S fuel' =>
             bind (Threaded.visit_class_fields visitor obj klass is_static)
                  (fun _ =>
                     bind (if is_static then ret NULL
                           else Threaded.read
                                  (fun hp => GetSuperClass hp klass))
                          (fun next =>
                             Threaded.class_walk visitor fuel' obj next
                                                 is_static))
         end.
Proof. destruct fuel; reflexivity. Qed.

Lemma simulates_class_walk (obj : Ref) (is_static : bool) (fuel : nat) :
  forall klass,
    simulates h (Threaded.class_walk visitor fuel obj klass is_static)
              (class_walk h visitor fuel obj klass is_static).
Proof.
  induction fuel as [|fuel IH]; intros klass;
    rewrite threaded_class_walk_eq, class_walk_eq;
    destruct (klass =? NULL); try apply simulates_ret.
  - apply simulates_out_of_fuel.
  - apply simulates_bind; [apply simulates_visit_class_fields|].
    intros _. destruct is_static.
    + apply simulates_ret_bind. apply IH.
    + apply simulates_read. apply IH.
Qed.

Lemma simulates_VisitFieldsReferences (fuel : nat) (obj : Ref) (r : Z)
      (is_static : bool) :
  simulates h (Threaded.VisitFieldsReferences cfg visitor fuel obj r is_static)
            (VisitFieldsReferences cfg h visitor fuel obj r is_static).
Proof.
  unfold Threaded.VisitFieldsReferences, VisitFieldsReferences.
  destruct (negb (r =? CLASS_WALK_SUPER cfg)).
  - apply simulates_bitmap_loop.
  - destruct is_static.
    + apply simulates_ret_bind. apply simulates_class_walk.
    + apply simulates_read. apply simulates_class_walk.
Qed.

Lemma simulates_VisitInstanceFieldsReferences (fuel : nat) (klass obj : Ref) :
  simulates h
    (Threaded.VisitInstanceFieldsReferences cfg visitor fuel klass obj)
    (VisitInstanceFieldsReferences cfg h visitor fuel klass obj).
Proof.
  unfold Threaded.VisitInstanceFieldsReferences, VisitInstanceFieldsReferences.
  apply simulates_bind; [apply simulates_DCHECK | intros _].
  apply simulates_bind; [apply simulates_DCHECK | intros _].
  apply simulates_read. apply simulates_VisitFieldsReferences.
Qed.

Lemma simulates_VisitStaticFieldsReferences (fuel : nat) (klass : Ref) :
  simulates h (Threaded.VisitStaticFieldsReferences cfg visitor fuel klass)
            (VisitStaticFieldsReferences cfg h visitor fuel klass).
Proof.
  unfold Threaded.VisitStaticFieldsReferences, VisitStaticFieldsReferences.
  apply simulates_bind; [apply simulates_DCHECK | intros _].
  apply simulates_read. apply simulates_VisitFieldsReferences.
Qed.

Lemma simulates_VisitClassReferences (fuel : nat) (klass obj : Ref) :
  simulates h (Threaded.VisitClassReferences cfg visitor fuel klass obj)
            (VisitClassReferences cfg h visitor fuel klass obj).
Proof.
  unfold Threaded.VisitClassReferences, VisitClassReferences.
  apply simulates_bind;
    [apply simulates_VisitInstanceFieldsReferences | intros _].
  apply simulates_VisitStaticFieldsReferences.
Qed.

Lemma simulates_VisitObjectArrayReferences (array : Ref) :
  simulates h (Threaded.VisitObjectArrayReferences cfg visitor array)
            (VisitObjectArrayReferences cfg h visitor array).
Proof.
  unfold Threaded.VisitObjectArrayReferences, VisitObjectArrayReferences,
         for_upto.
  apply simulates_read. apply simulates_for_range. intros i.
  apply simulates_read. apply simulates_call_visitor.
Qed.

Lemma simulates_DelayReferenceReferent (obj : Ref) :
  hook obj h = h ->
  @simulates V unit h (Threaded.DelayReferenceReferent hook obj)
             (DelayReferenceReferent obj).
Proof.
  intros Hhook st Hst.
  unfold Threaded.DelayReferenceReferent, DelayReferenceReferent, modify.
  destruct st as [m evs [hp x]]. simpl in Hst. subst hp.
  unfold emit, set_vs. simpl. rewrite Hhook. now split.
Qed.

(** With a visitor and a hook that leave the heap [h] as it is, the scanner
    over the changing heap does what the scanner over [h] does, and the
    heap is [h] when it stops. *)
Lemma simulates_ScanObjectVisit (fuel : nat) (obj : Ref) :
  hook obj h = h ->
  simulates h (Threaded.ScanObjectVisit cfg visitor hook fuel obj)
            (ScanObjectVisit cfg h visitor fuel obj).
Proof.
  intros Hhook. unfold Threaded.ScanObjectVisit, ScanObjectVisit.
  apply simulates_bind; [apply simulates_DCHECK | intros _].
  apply simulates_read.
  apply simulates_bind; [apply simulates_when, simulates_fatal | intros _].
  apply simulates_read.
  apply simulates_bind; [apply simulates_DCHECK | intros _].
  apply simulates_bind.
  { apply simulates_same. intros st Hst. exact Hst. }
  intros meta.
  destruct (GetClass h obj =? meta).
  - apply simulates_read.
    apply simulates_bind; [apply simulates_DCHECK | intros _].
    apply simulates_bind; [apply simulates_count | intros _].
    apply simulates_VisitClassReferences.
  - apply simulates_read. destruct (IsArrayClass h (GetClass h obj)).
    + apply simulates_bind; [apply simulates_count | intros _].
      apply simulates_bind; [apply simulates_call_visitor | intros _].
      apply simulates_read. apply simulates_when.
      apply simulates_VisitObjectArrayReferences.
    + apply simulates_bind; [apply simulates_count | intros _].
      apply simulates_bind.
      { unfold Threaded.VisitOtherReferences, VisitOtherReferences.
        apply simulates_VisitInstanceFieldsReferences. }
      intros _. apply simulates_read. apply simulates_when.
      now apply simulates_DelayReferenceReferent.
Qed.
End Simulation.

Lemma keeps_heap_wlogged {V} (v : Visitor (Heap * V)) :
  keeps_heap v -> keeps_heap (wlogged v).
Proof. intros Hv a b c d w. unfold wlogged. simpl. apply Hv. Qed.

Lemma replay_wlogged {V} (v : Visitor (Heap * V)) (calls : list Call)
      (hp : Heap) (x : V) (log : list Call) :
  replay (wlogged v) calls (hp, (x, log))
  = (fst (replay v calls (hp, x)),
     (snd (replay v calls (hp, x)), log ++ calls)).
Proof.
  revert hp x log. induction calls as [|c calls IH]; intros hp x log.
  - simpl. now rewrite app_nil_r.
  - change (replay (wlogged v) (c :: calls) (hp, (x, log)))
      with (replay (wlogged v) calls (invoke (wlogged v) c (hp, (x, log)))).
    change (replay v (c :: calls) (hp, x))
      with (replay v calls (invoke v c (hp, x))).
    unfold invoke at 1, wlogged at 2. cbn [fst snd].
    fold (invoke v c (hp, x)).
    destruct (invoke v c (hp, x)) as [hp' x'] eqn:Hstep. cbn [fst snd].
    rewrite IH. destruct c; simpl. now rewrite <- app_assoc.
Qed.

(** A hook that does write is seen by the next scan: after a scan of the
    reference object 1100 whose hook clears the slot at offset 8, a second
    scan reports that slot with a null referent. *)
Lemma scan_after_clearing_hook :
  match Threaded.ScanObjectVisit demo_cfg (wlogged (lift_visitor recorder))
          clearing_hook 1 1100
          {| ms := busy_ms; effects := [];
             vs := (demo_heap, (@nil Call, @nil Call)) |}
  with
  | Ok _ st1 =>
      snd (snd (vs st1)) = [mkCall 1100 1101 8 false]
      /\ match Threaded.ScanObjectVisit demo_cfg
                 (wlogged (lift_visitor recorder)) clearing_hook 1 1100
                 {| ms := ms st1; effects := effects st1;
                    vs := (fst (vs st1), (@nil Call, @nil Call)) |}
         with
         | Ok _ st2 => snd (snd (vs st2)) = [mkCall 1100 NULL 8 false]
         | _ => False
         end
  | _ => False
  end.
Proof. vm_compute. split; reflexivity. Qed.

(** C8.  Scanning an object and then scanning it again, each time with a
    visitor of its own, passes the same sequence of arguments to both
    visitors, and the scan itself writes nothing: with the heap kept in
    the state, where the visitor and the deferred-reference hook could
    rewrite it, a scan whose visitor and hook leave the heap alone ends
    with the heap it started from.  The second scan starts from the
    collector state and the heap the first one left. *)
Theorem scan_twice_same_calls :
  forall (cfg : Config) (V1 V2 : Type)
         (visitor1 : Visitor (Heap * V1)) (visitor2 : Visitor (Heap * V2))
         (hook : Ref -> Heap -> Heap)
         (fuel : nat) (obj : Ref) (m : MarkSweep) (evs : list Event)
         (h : Heap) (x1 : V1) (x2 : V2) (calls : list Call),
    keeps_heap visitor1 ->
    keeps_heap visitor2 ->
    hook obj h = h ->
    dchecks_pass cfg h (java_lang_Class_ m) obj = true ->
    marked_ok cfg h obj = true ->
    wf_offsets h (java_lang_Class_ m) obj = true ->
    ObjectCalls cfg h (java_lang_Class_ m) fuel obj = Some calls ->
    exists (st1 : State (Heap * (V1 * list Call)))
           (st2 : State (Heap * (V2 * list Call))),
      Threaded.ScanObjectVisit cfg (wlogged visitor1) hook fuel obj
        {| ms := m; effects := evs; vs := (h, (x1, [])) |}
      = Ok tt st1
      /\ fst (vs st1) = h
      /\ Threaded.ScanObjectVisit cfg (wlogged visitor2) hook fuel obj
           {| ms := ms st1; effects := effects st1;
              vs := (fst (vs st1), (x2, [])) |}
         = Ok tt st2
      /\ fst (vs st2) = h
      /\ snd (snd (vs st1)) = calls
      /\ snd (snd (vs st2)) = calls
      /\ map (fun c => (offset c, referent c)) (snd (snd (vs st1)))
         = map (fun c => (offset c, referent c)) (snd (snd (vs st2)))
      /\ effects st1 = evs ++ delayed h (classify h (java_lang_Class_ m) obj) obj.
Proof.
  intros cfg V1 V2 v1 v2 hook fuel obj m evs h x1 x2 calls
         Hk1 Hk2 Hhook Hd Hm Hwf Hcalls.
  set (s1 := {| ms := m; effects := evs; vs := (h, (x1, @nil Call)) |}).
  set (st1 := scanned cfg h (wlogged v1) obj calls s1).
  assert (Hmeta : java_lang_Class_ (ms st1) = java_lang_Class_ m).
  { unfold st1, scanned, count_kind. simpl.
    destruct (kCountScannedTypes cfg); [|reflexivity].
    destruct (classify h (java_lang_Class_ m) obj); reflexivity. }
  assert (Hvs1 : vs st1
                 = (fst (replay v1 calls (h, x1)),
                    (snd (replay v1 calls (h, x1)), calls))).
  { unfold st1, scanned. simpl. now rewrite replay_wlogged. }
  assert (Hrun1 : ScanObjectVisit cfg h (wlogged v1) fuel obj s1 = Ok tt st1).
  { rewrite ScanObjectVisit_calls by assumption.
    change (java_lang_Class_ (ms s1)) with (java_lang_Class_ m).
    now rewrite Hcalls. }
  destruct (@simulates_ScanObjectVisit cfg _ (wlogged v1) hook h
              (keeps_heap_wlogged Hk1) fuel obj Hhook s1 eq_refl)
    as [Hsim1 Hheap1].
  rewrite Hrun1 in Hsim1, Hheap1.
  set (s2 := {| ms := ms st1; effects := effects st1;
                vs := (fst (vs st1), (x2, @nil Call)) |}).
  assert (Hs2 : fst (vs s2) = h) by exact Hheap1.
  set (st2 := scanned cfg h (wlogged v2) obj calls s2).
  assert (Hrun2 : ScanObjectVisit cfg h (wlogged v2) fuel obj s2 = Ok tt st2).
  { assert (Hmeta2 : java_lang_Class_ (ms s2) = java_lang_Class_ m)
      by exact Hmeta.
    rewrite ScanObjectVisit_calls; rewrite ?Hmeta2; try assumption.
    now rewrite Hcalls. }
  destruct (@simulates_ScanObjectVisit cfg _ (wlogged v2) hook h
              (keeps_heap_wlogged Hk2) fuel obj Hhook s2 Hs2)
    as [Hsim2 Hheap2].
  rewrite Hrun2 in Hsim2, Hheap2.
  assert (Hvs2 : snd (snd (vs st2)) = calls).
  { unfold st2, scanned. cbn [vs]. unfold s2 at 1. cbn [vs].
    rewrite replay_wlogged. reflexivity. }
  exists st1, st2.
  split; [exact Hsim1|]. split; [exact Hheap1|].
  split; [exact Hsim2|]. split; [exact Hheap2|].
  assert (Hlog1 : snd (snd (vs st1)) = calls) by now rewrite Hvs1.
  split; [exact Hlog1|]. split; [exact Hvs2|].
  split; [now rewrite Hlog1, Hvs2|].
  reflexivity.
Qed.

(** C1, as amended.  On an object that passes the debug checks, with the
    collector's cached meta-class pointer equal to the runtime's, the two
    entry points put the object in the same kind and make exactly the same
    sequence of visitor calls.  They differ in the debug marked test, in
    the counters, and in the deferred-reference hook: only
    [ScanObjectVisit] calls it. *)
Theorem entry_points_same_visits :
  forall (cfg : Config) (h : Heap) (V : Type) (visitor : Visitor V)
         (fuel : nat) (obj : Ref) (st : State V) (calls : list Call),
    java_lang_Class_ (ms st) = GetJavaLangClass h ->
    dchecks_pass cfg h (GetJavaLangClass h) obj = true ->
    marked_ok cfg h obj = true ->
    wf_offsets h (GetJavaLangClass h) obj = true ->
    ObjectCalls cfg h (GetJavaLangClass h) fuel obj = Some calls ->
    classify h (java_lang_Class_ (ms st)) obj
    = classify h (GetJavaLangClass h) obj
    /\ exists st_visit st_scan : State V,
        VisitObjectReferences cfg h visitor fuel obj st = Ok tt st_visit
        /\ ScanObjectVisit cfg h visitor fuel obj st = Ok tt st_scan
        /\ vs st_visit = replay visitor calls (vs st)
        /\ vs st_scan = replay visitor calls (vs st)
        /\ ms st_visit = ms st
        /\ effects st_visit = effects st
        /\ ms st_scan
           = count_kind cfg (classify h (GetJavaLangClass h) obj) (ms st)
        /\ effects st_scan
           = effects st ++ delayed h (classify h (GetJavaLangClass h) obj) obj.
Proof.
  intros cfg h V visitor fuel obj st calls Hmeta Hd Hm Hwf Hcalls.
  split; [now rewrite Hmeta|].
  exists (visited visitor calls st), (scanned cfg h visitor obj calls st).
  split; [|split].
  - rewrite VisitObjectReferences_calls by assumption. now rewrite Hcalls.
  - rewrite ScanObjectVisit_calls; rewrite ?Hmeta; try assumption.
    now rewrite Hcalls.
  - unfold scanned. rewrite Hmeta. simpl. repeat split; reflexivity.
Qed.







(** ** The theorems at work on the small heap *)

Lemma VisitFieldsReferences_bitmap_path_witness :
  uint32 671088640
  /\ 671088640 <> CLASS_WALK_SUPER demo_cfg
  /\ (popcount 671088640 <= 2)%nat
  /\ VisitFieldsReferences demo_cfg demo_heap recorder 2 1000 671088640 false
                           (demo_state [])
     = Ok tt (demo_state [mkCall 1000 1001 8 false; mkCall 1000 1002 16 false]).
Proof.
  assert (H1 : uint32 671088640) by (unfold uint32; lia).
  assert (H2 : 671088640 <> CLASS_WALK_SUPER demo_cfg) by (simpl; lia).
  assert (H3 : (popcount 671088640 <= 2)%nat) by (vm_compute; lia).
  split; [exact H1|]. split; [exact H2|]. split; [exact H3|].
  pose proof (proj1 (@VisitFieldsReferences_bitmap_path
                       demo_cfg demo_heap _ recorder 2 1000 671088640 false
                       (demo_state []) H1 H2 H3)) as W.
  rewrite W. vm_compute. reflexivity.
Defined.

Lemma bitmap_loop_terminates_witness :
  uint32 671088640
  /\ 671088640 <> CLASS_WALK_SUPER demo_cfg
  /\ (popcount 671088640 <= 32)%nat
  /\ (exists st',
         VisitFieldsReferences demo_cfg demo_heap recorder 32 1000 671088640
                               false (demo_state []) = Ok tt st')
  /\ VisitFieldsReferences demo_cfg demo_heap recorder 1 1000 671088640 false
                           (demo_state []) = OutOfFuel
  /\ bitmap_loop demo_cfg demo_heap recorder 2 1000 671088640 false
                 (demo_state [])
     = bitmap_loop demo_cfg demo_heap recorder 1 1000 134217728 false
                   (demo_state [mkCall 1000 1001 8 false])
  /\ VisitFieldsReferences demo_cfg demo_heap counting_visitor 32 1000
                           671088640 false
                           {| ms := demo_ms; effects := []; vs := 5%nat |}
     = Ok tt {| ms := demo_ms; effects := []; vs := 7%nat |}.
Proof.
  assert (H1 : uint32 671088640) by (unfold uint32; lia).
  assert (H2 : 671088640 <> CLASS_WALK_SUPER demo_cfg) by (simpl; lia).
  destruct (@bitmap_loop_terminates demo_cfg demo_heap _ recorder 1000
              671088640 false (demo_state []) H1 H2)
    as (_ & Hcount & Henough & Hshort & _ & _ & Hiter & Hcalls).
  split; [exact H1|]. split; [exact H2|]. split; [exact Hcount|].
  split; [|split; [|split]].
  - apply Henough. exact Hcount.
  - apply Hshort. vm_compute. lia.
  - assert (H3 : 671088640 <> 0) by lia.
    exact (proj1 (Hiter 671088640 1%nat (demo_state []) H1 H3)).
  - exact (Hcalls 5%nat).
Defined.

Lemma VisitFieldsReferences_walk_super_witness :
  ancestors demo_heap 3 (GetClass demo_heap 224) = Some [64; 96]
  /\ (1 <= 3)%nat
  /\ VisitFieldsReferences demo_cfg demo_heap recorder 3 224
                           (CLASS_WALK_SUPER demo_cfg) false (demo_state [])
     = Ok tt (demo_state [mkCall 224 96 4 false; mkCall 224 64 0 false])
  /\ VisitFieldsReferences demo_cfg demo_heap recorder 3 224
                           (CLASS_WALK_SUPER demo_cfg) true (demo_state [])
     = Ok tt (demo_state [mkCall 224 2001 48 true]).
Proof.
  assert (H1 : ancestors demo_heap 3 (GetClass demo_heap 224) = Some [64; 96])
    by reflexivity.
  assert (H2 : (1 <= 3)%nat) by lia.
  destruct (@VisitFieldsReferences_walk_super demo_cfg demo_heap _ recorder 3
              224 [64; 96] (demo_state []) H1 H2) as (_ & Hinst & Hstat).
  split; [exact H1|]. split; [exact H2|]. split.
  - rewrite Hinst. vm_compute. reflexivity.
  - rewrite Hstat. vm_compute. reflexivity.
Defined.

Lemma ScanObjectVisit_array_witness :
  dchecks_pass demo_cfg demo_heap (java_lang_Class_ demo_ms) 1200 = true
  /\ marked_ok demo_cfg demo_heap 1200 = true
  /\ GetClass demo_heap 1200 <> java_lang_Class_ demo_ms
  /\ IsArrayClass demo_heap (GetClass demo_heap 1200) = true
  /\ array_fits demo_cfg demo_heap 1200 = true
  /\ ScanObjectVisit demo_cfg demo_heap recorder 0 1200 (demo_state [])
     = Ok tt {| ms := {| java_lang_Class_ := 64; class_count_ := 0;
                         array_count_ := 1; other_count_ := 0 |};
                effects := [];
                vs := [mkCall 1200 192 0 false; mkCall 1200 1201 12 false;
                       mkCall 1200 0 16 false; mkCall 1200 1203 20 false] |}.
Proof.
  assert (H1 : dchecks_pass demo_cfg demo_heap (java_lang_Class_ demo_ms) 1200
               = true) by reflexivity.
  assert (H2 : marked_ok demo_cfg demo_heap 1200 = true) by reflexivity.
  assert (H3 : GetClass demo_heap 1200 <> java_lang_Class_ demo_ms)
    by (vm_compute; discriminate).
  assert (H4 : IsArrayClass demo_heap (GetClass demo_heap 1200) = true)
    by reflexivity.
  assert (H5 : array_fits demo_cfg demo_heap 1200 = true) by reflexivity.
  destruct (@ScanObjectVisit_array demo_cfg demo_heap _ recorder 0 1200
              (demo_state []) H1 H2 H3 H4 H5) as (calls & Hrun & _ & Hcalls & _).
  repeat (split; [assumption|]).
  rewrite Hrun, Hcalls. vm_compute. reflexivity.
Defined.

Lemma ScanObjectVisit_class_object_witness :
  dchecks_pass demo_cfg demo_heap (java_lang_Class_ demo_ms) 128 = true
  /\ marked_ok demo_cfg demo_heap 128 = true
  /\ wf_offsets demo_heap (java_lang_Class_ demo_ms) 128 = true
  /\ GetClass demo_heap 128 = java_lang_Class_ demo_ms
  /\ FieldsCalls demo_cfg demo_heap 32 128
       (GetReferenceInstanceOffsets demo_heap (GetClass demo_heap 128)) false
     = Some [mkCall 128 96 4 false]
  /\ FieldsCalls demo_cfg demo_heap 32 128
       (GetReferenceStaticOffsets demo_heap 128) true
     = Some [mkCall 128 2000 44 true]
  /\ ScanObjectVisit demo_cfg demo_heap recorder 32 128 (demo_state [])
     = Ok tt {| ms := {| java_lang_Class_ := 64; class_count_ := 1;
                         array_count_ := 0; other_count_ := 0 |};
                effects := [];
                vs := [mkCall 128 96 4 false; mkCall 128 2000 44 true] |}.
Proof.
  assert (H1 : dchecks_pass demo_cfg demo_heap (java_lang_Class_ demo_ms) 128
               = true) by reflexivity.
  assert (H2 : marked_ok demo_cfg demo_heap 128 = true) by reflexivity.
  assert (H3 : wf_offsets demo_heap (java_lang_Class_ demo_ms) 128 = true)
    by reflexivity.
  assert (H4 : GetClass demo_heap 128 = java_lang_Class_ demo_ms)
    by reflexivity.
  assert (H5 : FieldsCalls demo_cfg demo_heap 32 128
                 (GetReferenceInstanceOffsets demo_heap (GetClass demo_heap 128))
                 false
               = Some [mkCall 128 96 4 false]) by (vm_compute; reflexivity).
  assert (H6 : FieldsCalls demo_cfg demo_heap 32 128
                 (GetReferenceStaticOffsets demo_heap 128) true
               = Some [mkCall 128 2000 44 true]) by (vm_compute; reflexivity).
  destruct (@ScanObjectVisit_class_object demo_cfg demo_heap _ recorder 32 128
              (demo_state []) _ _ H1 H2 H3 H4 H5 H6) as (Hrun & _).
  repeat (split; [assumption|]).
  rewrite Hrun. vm_compute. reflexivity.
Defined.

Lemma ScanObjectVisit_unmarked_aborts_witness :
  kIsDebugBuild demo_cfg = true
  /\ 1400 <> NULL
  /\ IsMarked demo_heap 1400 = false
  /\ ScanObjectVisit demo_cfg demo_heap recorder 32 1400 (demo_state [])
     = Aborted {| ms := demo_ms;
                  effects := [EvDumpSpaces; EvFatalUnmarked 1400];
                  vs := [] |}.
Proof.
  assert (H1 : kIsDebugBuild demo_cfg = true) by reflexivity.
  assert (H2 : 1400 <> NULL) by (unfold NULL; lia).
  assert (H3 : IsMarked demo_heap 1400 = false) by reflexivity.
  repeat (split; [assumption|]).
  exact (@ScanObjectVisit_unmarked_aborts demo_cfg demo_heap _ recorder 32 1400
           (demo_state []) H1 H2 H3).
Defined.

Lemma scan_counters_witness :
  kCountScannedTypes demo_cfg = true
  /\ dchecks_pass demo_cfg demo_heap (java_lang_Class_ busy_ms) 1000 = true
  /\ marked_ok demo_cfg demo_heap 1000 = true
  /\ wf_offsets demo_heap (java_lang_Class_ busy_ms) 1000 = true
  /\ ObjectCalls demo_cfg demo_heap (java_lang_Class_ busy_ms) 2 1000
     = Some [mkCall 1000 1001 8 false; mkCall 1000 1002 16 false]
  /\ exists st' : State (list Call),
      ScanObjectVisit demo_cfg demo_heap recorder 2 1000 (busy_state [])
      = Ok tt st'
      /\ class_count_ (ms st') = 7
      /\ array_count_ (ms st') = 11
      /\ other_count_ (ms st') = 42.
Proof.
  assert (H1 : kCountScannedTypes demo_cfg = true) by reflexivity.
  assert (H2 : dchecks_pass demo_cfg demo_heap (java_lang_Class_ busy_ms) 1000
               = true) by reflexivity.
  assert (H3 : marked_ok demo_cfg demo_heap 1000 = true) by reflexivity.
  assert (H4 : wf_offsets demo_heap (java_lang_Class_ busy_ms) 1000 = true)
    by reflexivity.
  assert (H5 : ObjectCalls demo_cfg demo_heap (java_lang_Class_ busy_ms) 2 1000
               = Some [mkCall 1000 1001 8 false; mkCall 1000 1002 16 false])
    by (vm_compute; reflexivity).
  destruct (@scan_counters demo_cfg demo_heap _ recorder 2 1000 (busy_state [])
              _ H1 H2 H3 H4 H5) as ((st' & Hrun & _ & Hkind) & _).
  repeat (split; [assumption|]).
  exists st'. split; [exact Hrun|].
  change (classify demo_heap (java_lang_Class_ (ms (busy_state []))) 1000)
    with KindOther in Hkind.
  destruct Hkind as (Hc & Ha & _ & Ho).
  split; [exact Hc|]. split; [exact Ha|].
  rewrite Ho; [reflexivity|]. vm_compute. split; congruence.
Defined.

Lemma scan_twice_same_calls_witness :
  keeps_heap (lift_visitor recorder)
  /\ keeps_heap (lift_visitor counting_visitor)
  /\ idle_hook 1100 demo_heap = demo_heap
  /\ dchecks_pass demo_cfg demo_heap (java_lang_Class_ busy_ms) 1100 = true
  /\ marked_ok demo_cfg demo_heap 1100 = true
  /\ wf_offsets demo_heap (java_lang_Class_ busy_ms) 1100 = true
  /\ ObjectCalls demo_cfg demo_heap (java_lang_Class_ busy_ms) 1 1100
     = Some [mkCall 1100 1101 8 false]
  /\ exists (st1 : State (Heap * (list Call * list Call)))
            (st2 : State (Heap * (nat * list Call))),
      Threaded.ScanObjectVisit demo_cfg (wlogged (lift_visitor recorder))
        idle_hook 1 1100
        {| ms := busy_ms; effects := []; vs := (demo_heap, ([], [])) |}
      = Ok tt st1
      /\ Threaded.ScanObjectVisit demo_cfg
           (wlogged (lift_visitor counting_visitor)) idle_hook 1 1100
           {| ms := ms st1; effects := effects st1;
              vs := (fst (vs st1), (0%nat, [])) |}
         = Ok tt st2
      /\ snd (snd (vs st1)) = [mkCall 1100 1101 8 false]
      /\ snd (snd (vs st2)) = [mkCall 1100 1101 8 false]
      /\ effects st1 = [EvDelayReferenceReferent 1100]
      /\ fst (vs st2) = demo_heap.
Proof.
  assert (H1 : keeps_heap (lift_visitor recorder))
    by (intros a b c d w; reflexivity).
  assert (H2 : keeps_heap (lift_visitor counting_visitor))
    by (intros a b c d w; reflexivity).
  assert (H3 : idle_hook 1100 demo_heap = demo_heap) by reflexivity.
  assert (H4 : dchecks_pass demo_cfg demo_heap (java_lang_Class_ busy_ms) 1100
               = true) by reflexivity.
  assert (H5 : marked_ok demo_cfg demo_heap 1100 = true) by reflexivity.
  assert (H6 : wf_offsets demo_heap (java_lang_Class_ busy_ms) 1100 = true)
    by reflexivity.
  assert (H7 : ObjectCalls demo_cfg demo_heap (java_lang_Class_ busy_ms) 1 1100
               = Some [mkCall 1100 1101 8 false]) by (vm_compute; reflexivity).
  destruct (@scan_twice_same_calls demo_cfg _ _ (lift_visitor recorder)
              (lift_visitor counting_visitor) idle_hook 1 1100 busy_ms []
              demo_heap [] 0%nat _ H1 H2 H3 H4 H5 H6 H7)
    as (st1 & st2 & Hrun1 & _ & Hrun2 & Hheap2 & Hlog1 & Hlog2 & _ & Heff).
  repeat (split; [assumption|]).
  exists st1, st2.
  split; [exact Hrun1|]. split; [exact Hrun2|].
  split; [exact Hlog1|]. split; [exact Hlog2|].
  split; [rewrite Heff; reflexivity | exact Hheap2].
Defined.

Lemma entry_points_same_visits_witness :
  java_lang_Class_ demo_ms = GetJavaLangClass demo_heap
  /\ dchecks_pass demo_cfg demo_heap (GetJavaLangClass demo_heap) 1100 = true
  /\ marked_ok demo_cfg demo_heap 1100 = true
  /\ wf_offsets demo_heap (GetJavaLangClass demo_heap) 1100 = true
  /\ ObjectCalls demo_cfg demo_heap (GetJavaLangClass demo_heap) 1 1100
     = Some [mkCall 1100 1101 8 false]
  /\ exists st_visit st_scan : State (list Call),
      VisitObjectReferences demo_cfg demo_heap recorder 1 1100 (demo_state [])
      = Ok tt st_visit
      /\ ScanObjectVisit demo_cfg demo_heap recorder 1 1100 (demo_state [])
         = Ok tt st_scan
      /\ vs st_visit = [mkCall 1100 1101 8 false]
      /\ vs st_scan = [mkCall 1100 1101 8 false].
Proof.
  assert (H1 : java_lang_Class_ (ms (demo_state (@nil Call)))
               = GetJavaLangClass demo_heap) by reflexivity.
  assert (H2 : dchecks_pass demo_cfg demo_heap (GetJavaLangClass demo_heap) 1100
               = true) by reflexivity.
  assert (H3 : marked_ok demo_cfg demo_heap 1100 = true) by reflexivity.
  assert (H4 : wf_offsets demo_heap (GetJavaLangClass demo_heap) 1100 = true)
    by reflexivity.
  assert (H5 : ObjectCalls demo_cfg demo_heap (GetJavaLangClass demo_heap) 1 1100
               = Some [mkCall 1100 1101 8 false]) by (vm_compute; reflexivity).
  destruct (@entry_points_same_visits demo_cfg demo_heap _ recorder 1 1100
              (demo_state []) _ H1 H2 H3 H4 H5)
    as (_ & st_visit & st_scan & Hv & Hs & Hvv & Hvs & _).
  repeat (split; [assumption|]).
  exists st_visit, st_scan.
  split; [exact Hv|]. split; [exact Hs|].
  split; [rewrite Hvv | rewrite Hvs]; reflexivity.
Defined.


(** ** Where the code departs from the specification *)

(** C1 as stated fails: on an instance of a reference class
    [ScanObjectVisit] calls the deferred-reference hook and
    [VisitObjectReferences] does not. *)
Lemma entry_points_differ_on_hook :
  exists st_scan st_visit : State (list Call),
    ScanObjectVisit demo_cfg demo_heap recorder 1 1100 (demo_state [])
    = Ok tt st_scan
    /\ VisitObjectReferences demo_cfg demo_heap recorder 1 1100 (demo_state [])
       = Ok tt st_visit
    /\ delay_count 1100 (effects st_scan) = 1%nat
    /\ delay_count 1100 (effects st_visit) = 0%nat
    /\ effects st_scan <> effects st_visit.
Proof.
  eexists. eexists.
  split; [vm_compute; reflexivity|].
  split; [vm_compute; reflexivity|].
  split; [reflexivity|]. split; [reflexivity|]. discriminate.
Qed.

(** * Further properties of the scanners *)

(** ** Order and distinctness of the reported slots *)

Lemma StronglySorted_map_mono {A B} (f : A -> B) (R : A -> A -> Prop)
      (R' : B -> B -> Prop) (l : list A) :
  (forall a b, R a b -> R' (f a) (f b)) ->
  StronglySorted R l -> StronglySorted R' (map f l).
Proof.
  intros Hmono. induction 1 as [|a l Hs IH Hall]; simpl; constructor; auto.
  apply Forall_forall. intros b Hb. apply in_map_iff in Hb as (x & <- & Hx).
  apply Hmono. rewrite Forall_forall in Hall. auto.
Qed.

Lemma StronglySorted_lt_NoDup (l : list Z) : StronglySorted Z.lt l -> NoDup l.
Proof.
  induction 1 as [|a l Hs IH Hall]; constructor; auto.
  intros Hin. rewrite Forall_forall in Hall. specialize (Hall a Hin). lia.
Qed.

Lemma Zrange_sorted (n : nat) (from : Z) : StronglySorted Z.lt (Zrange from n).
Proof.
  revert from. induction n as [|n IH]; intros from; simpl; constructor; auto.
  apply Forall_forall. intros i Hi. rewrite Zrange_seq in Hi.
  apply in_map_iff in Hi as (k & <- & _). lia.
Qed.

Lemma indices_nth (bound i : Z) :
  0 <= i < bound -> nth_error (indices bound) (Z.to_nat i) = Some i.
Proof.
  intros Hi. rewrite indices_seq, nth_error_map, nth_error_seq.
  assert ((Z.to_nat i <? Z.to_nat bound)%nat = true) as ->
      by (apply Nat.ltb_lt; lia).
  simpl. f_equal. lia.
Qed.

Lemma bits_desc_range (n : nat) (r : Z) :
  Forall (fun b => 0 <= b < Z.of_nat n) (bits_desc n r).
Proof.
  apply Forall_forall. intros b Hb. now apply bits_desc_In in Hb.
Qed.

Lemma bitmap_call_range (cfg : Config) (h : Heap) (obj : Ref)
      (is_static : bool) (bits : list Z) :
  0 < CLASS_OFFSET_ALIGNMENT cfg ->
  Forall (fun b => 0 <= b < 32) bits ->
  Forall (fun c =>
            CLASS_SMALLEST_OFFSET cfg <= offset c
            <= CLASS_SMALLEST_OFFSET cfg + 31 * CLASS_OFFSET_ALIGNMENT cfg)
         (map (bitmap_call cfg h obj is_static) bits).
Proof.
  intros Halign.
  induction 1 as [|b bits Hb Hall IH]; cbn [map]; constructor; auto.
  unfold bitmap_call, CLASS_OFFSET_FROM_CLZ. cbn [offset].
  assert (H0 : 0 <= (31 - b) * CLASS_OFFSET_ALIGNMENT cfg)
    by (apply Z.mul_nonneg_nonneg; lia).
  assert (H1 : 0 <= b * CLASS_OFFSET_ALIGNMENT cfg)
    by (apply Z.mul_nonneg_nonneg; lia).
  lia.
Qed.

(** X1.  On the fast path with a positive offset alignment the visitor is
    given the slots in strictly ascending offset order, so no slot is
    reported twice, and there are as many calls as set bits, at most 32. *)
Theorem bitmap_path_offsets_ascending :
  forall (cfg : Config) (h : Heap) (V : Type) (visitor : Visitor V)
         (fuel : nat) (obj : Ref) (ref_offsets : Z) (is_static : bool)
         (st : State V),
    uint32 ref_offsets ->
    ref_offsets <> CLASS_WALK_SUPER cfg ->
    (popcount ref_offsets <= fuel)%nat ->
    0 < CLASS_OFFSET_ALIGNMENT cfg ->
    exists calls : list Call,
      VisitFieldsReferences cfg h visitor fuel obj ref_offsets is_static st
      = Ok tt (visited visitor calls st)
      /\ length calls = popcount ref_offsets
      /\ (length calls <= 32)%nat
      /\ StronglySorted Z.lt (map offset calls)
      /\ NoDup (map offset calls)
      /\ Forall (fun c =>
                   CLASS_SMALLEST_OFFSET cfg <= offset c
                   <= CLASS_SMALLEST_OFFSET cfg
                      + 31 * CLASS_OFFSET_ALIGNMENT cfg) calls.
Proof.
  intros cfg h V visitor fuel obj r is_static st Hr Hns Hfuel Halign.
  exists (bitmap_calls cfg h obj r is_static).
  assert (Hsorted : StronglySorted Z.lt
                      (map offset (bitmap_calls cfg h obj r is_static))).
  { unfold bitmap_calls. rewrite map_map.
    apply StronglySorted_map_mono with (R := Z.gt);
      [|apply bits_desc_sorted].
    intros a b Hab. unfold bitmap_call, CLASS_OFFSET_FROM_CLZ. cbn [offset].
    assert (Hpos : 0 < (a - b) * CLASS_OFFSET_ALIGNMENT cfg)
      by (apply Z.mul_pos_pos; lia).
    lia. }
  assert (Hlen : length (bitmap_calls cfg h obj r is_static) = popcount r).
  { unfold bitmap_calls, popcount. apply length_map. }
  split; [|split; [exact Hlen|split; [|split; [|split]]]].
  - rewrite VisitFieldsReferences_calls by exact Hr.
    unfold FieldsCalls.
    assert ((r =? CLASS_WALK_SUPER cfg) = false) as -> by now apply Z.eqb_neq.
    cbn [negb].
    assert ((popcount r <=? fuel)%nat = true) as -> by now apply Nat.leb_le.
    reflexivity.
  - rewrite Hlen. apply bits_desc_length.
  - exact Hsorted.
  - now apply StronglySorted_lt_NoDup.
  - unfold bitmap_calls. apply bitmap_call_range; [exact Halign|].
    exact (bits_desc_range 32 r).
Qed.

(** X2.  [VisitObjectArrayReferences] needs no fuel and always returns.  It
    calls the visitor once per index below the length, each time with the
    array as holder and the static flag false; on a length that is zero or
    negative it does nothing.  When the array lies inside the address space
    the call for index [i] carries the element read at [i] and the offset
    [i * width + dataOffset], so the offsets are strictly ascending and
    pairwise distinct. *)
Theorem VisitObjectArrayReferences_slots :
  forall (cfg : Config) (h : Heap) (V : Type) (visitor : Visitor V)
         (array : Ref) (st : State V),
    exists calls : list Call,
      VisitObjectArrayReferences cfg h visitor array st
      = Ok tt (visited visitor calls st)
      /\ length calls = Z.to_nat (GetLength h array)
      /\ Forall (fun c => holder c = array /\ is_static_field c = false) calls
      /\ (GetLength h array <= 0 ->
          calls = []
          /\ VisitObjectArrayReferences cfg h visitor array st = Ok tt st)
      /\ (array_fits cfg h array = true ->
          (forall i, 0 <= i < GetLength h array ->
                     nth_error calls (Z.to_nat i)
                     = Some (mkCall array (GetWithoutChecks h array i)
                                    (i * sizeof_reference cfg
                                     + DataOffset cfg (sizeof_reference cfg))
                                    false))
          /\ StronglySorted Z.lt (map offset calls)
          /\ NoDup (map offset calls)).
Proof.
  intros cfg h V visitor array st.
  exists (array_calls cfg h array).
  assert (Hrun : VisitObjectArrayReferences cfg h visitor array st
                 = Ok tt (visited visitor (array_calls cfg h array) st))
    by apply VisitObjectArrayReferences_calls.
  split; [exact Hrun|].
  split; [unfold array_calls; now rewrite length_map, indices_length|].
  split; [unfold array_calls; apply Forall_map_calls; intros i; now split|].
  split.
  - intros Hlen.
    assert (Hnil : array_calls cfg h array = []).
    { unfold array_calls, indices.
      replace (Z.to_nat (GetLength h array)) with 0%nat by lia. reflexivity. }
    split; [exact Hnil|]. rewrite Hrun, Hnil. now rewrite visited_nil.
  - intros Hfits. unfold array_fits in Hfits.
    apply andb_prop in Hfits as [Hfits Hend].
    apply andb_prop in Hfits as [Hw Hdata].
    assert (Hoff : forall i, 0 <= i < GetLength h array ->
                             element_offset cfg i
                             = i * sizeof_reference cfg
                               + DataOffset cfg (sizeof_reference cfg)).
    { intros i Hi. unfold element_offset, to_size_t.
      apply Z.mod_small. nia. }
    assert (Hsorted : StronglySorted Z.lt
                        (map offset (array_calls cfg h array))).
    { unfold array_calls. rewrite map_map. simpl.
      rewrite (map_ext_in _
                 (fun i => i * sizeof_reference cfg
                           + DataOffset cfg (sizeof_reference cfg))).
      2:{ intros i Hi. apply indices_In in Hi. now apply Hoff. }
      apply StronglySorted_map_mono with (R := Z.lt);
        [|apply Zrange_sorted].
      intros a b Hab. nia. }
    split; [|split; [exact Hsorted | now apply StronglySorted_lt_NoDup]].
    intros i Hi. unfold array_calls.
    rewrite nth_error_map, indices_nth by exact Hi. simpl.
    unfold element_call. now rewrite Hoff.
Qed.

(** ** The two encodings of a layout *)

Lemma flat_map_map_calls {A B} (f : B -> Call) (g : A -> list B) (l : list A) :
  flat_map (fun a => map f (g a)) l = map f (flat_map g l).
Proof.
  induction l as [|a l IH]; simpl; [reflexivity|].
  now rewrite IH, map_app.
Qed.

(** X3.  The encoding does not change what is reported: when the offsets
    that a layout word names, highest bit first, are the offsets of the
    declared reference instance fields along the superclass chain, the fast
    path on that word and the slow path on the sentinel leave the same
    state, for every visitor. *)
Theorem fast_and_slow_path_agree :
  forall (cfg : Config) (h : Heap) (V : Type) (visitor : Visitor V)
         (fuel : nat) (obj : Ref) (ref_offsets : Z) (chain : list Ref)
         (st : State V),
    uint32 ref_offsets ->
    ref_offsets <> CLASS_WALK_SUPER cfg ->
    (popcount ref_offsets <= fuel)%nat ->
    ancestors h fuel (GetClass h obj) = Some chain ->
    map (fun b => CLASS_OFFSET_FROM_CLZ cfg (31 - b)) (set_bits_desc ref_offsets)
    = flat_map (fun klass =>
                  map (fun i => GetOffset h (GetInstanceField h klass i))
                      (indices (NumReferenceInstanceFields h klass)))
               chain ->
    VisitFieldsReferences cfg h visitor fuel obj ref_offsets false st
    = VisitFieldsReferences cfg h visitor fuel obj (CLASS_WALK_SUPER cfg) false st
    /\ exists st' : State V,
        VisitFieldsReferences cfg h visitor fuel obj ref_offsets false st
        = Ok tt st'.
Proof.
  intros cfg h V visitor fuel obj r chain st Hr Hns Hfuel Hchain Hsame.
  set (slot := fun off => mkCall obj (GetFieldObject h obj off) off false).
  assert (Hfast : bitmap_calls cfg h obj r false
                  = map slot (map (fun b => CLASS_OFFSET_FROM_CLZ cfg (31 - b))
                                  (set_bits_desc r))).
  { unfold bitmap_calls. rewrite map_map. reflexivity. }
  assert (Hslow : flat_map (level_calls h obj false) chain
                  = map slot
                        (flat_map
                           (fun klass =>
                              map (fun i => GetOffset h (GetInstanceField h klass i))
                                  (indices (NumReferenceInstanceFields h klass)))
                           chain)).
  { rewrite <- flat_map_map_calls. apply flat_map_ext. intros klass.
    unfold level_calls. rewrite map_map. reflexivity. }
  assert (Hrun : VisitFieldsReferences cfg h visitor fuel obj r false st
                 = Ok tt (visited visitor (bitmap_calls cfg h obj r false) st)).
  { rewrite VisitFieldsReferences_calls by exact Hr. unfold FieldsCalls.
    assert ((r =? CLASS_WALK_SUPER cfg) = false) as -> by now apply Z.eqb_neq.
    cbn [negb].
    assert ((popcount r <=? fuel)%nat = true) as -> by now apply Nat.leb_le.
    reflexivity. }
  split; [|eexists; exact Hrun].
  rewrite Hrun. unfold VisitFieldsReferences at 1.
  rewrite Z.eqb_refl. cbn [negb].
  rewrite class_walk_instance, Hchain.
  now rewrite Hfast, Hslow, Hsame.
Qed.

(** X4.  The slow path has no guard against a superclass chain that never
    reaches [NULL], such as a cyclic one: in instance mode it then never
    returns, whatever the fuel. *)
Theorem walk_super_endless_chain_diverges :
  forall (cfg : Config) (h : Heap) (V : Type) (visitor : Visitor V)
         (obj : Ref) (st : State V),
    (forall n : nat, Nat.iter n (GetSuperClass h) (GetClass h obj) <> NULL) ->
    forall fuel : nat,
      VisitFieldsReferences cfg h visitor fuel obj (CLASS_WALK_SUPER cfg) false st
      = OutOfFuel.
Proof.
  intros cfg h V visitor obj st Hchain fuel.
  unfold VisitFieldsReferences. rewrite Z.eqb_refl. cbn [negb].
  revert Hchain. generalize (GetClass h obj) as klass. revert st.
  induction fuel as [|fuel IH]; intros st klass Hchain;
    rewrite class_walk_eq;
    assert ((klass =? NULL) = false) as ->
      by (apply Z.eqb_neq; exact (Hchain 0%nat)).
  - reflexivity.
  - unfold bind. rewrite visit_class_fields_calls.
    apply IH. intros n. rewrite <- Nat.iter_succ_r. apply Hchain.
Qed.

(** X5.  The fast path reads nothing but slots of the scanned object: on
    two heaps that agree on those slots it behaves the same, whatever their
    classes, field descriptors and mark bits are. *)
Theorem bitmap_path_reads_only_object_slots :
  forall (cfg : Config) (h1 h2 : Heap) (V : Type) (visitor : Visitor V)
         (fuel : nat) (obj : Ref) (ref_offsets : Z) (is_static : bool)
         (st : State V),
    ref_offsets <> CLASS_WALK_SUPER cfg ->
    (forall off, GetFieldObject h1 obj off = GetFieldObject h2 obj off) ->
    VisitFieldsReferences cfg h1 visitor fuel obj ref_offsets is_static st
    = VisitFieldsReferences cfg h2 visitor fuel obj ref_offsets is_static st.
Proof.
  intros cfg h1 h2 V visitor fuel obj r is_static st Hns Hslots.
  unfold VisitFieldsReferences.
  assert ((r =? CLASS_WALK_SUPER cfg) = false) as -> by now apply Z.eqb_neq.
  cbn [negb]. clear Hns. revert r st.
  induction fuel as [|fuel IH]; intros r st;
    rewrite (@bitmap_loop_eq cfg h1 _ visitor),
            (@bitmap_loop_eq cfg h2 _ visitor);
    destruct (r =? 0); try reflexivity.
  unfold bind, call_visitor, modify. rewrite Hslots. apply IH.
Qed.

(** ** Outcomes of the entry points *)

Section PureVisit.
Variable cfg : Config.
Variable h : Heap.
Variable V : Type.
Variable visitor : Visitor V.

Lemma pure_ret {A} (a : A) : pure_visit (ret a : M (State V) A).
Proof. intros st. simpl. now split. Qed.

Lemma pure_out_of_fuel {A} : pure_visit (out_of_fuel : M (State V) A).
Proof. intros st. exact I. Qed.

Lemma pure_bind {A B} (m : M (State V) A) (k : A -> M (State V) B) :
  pure_visit m -> (forall a, pure_visit (k a)) -> pure_visit (bind m k).
Proof.
  intros Hm Hk st. unfold bind. specialize (Hm st).
  destruct (m st) as [a s1|s1|]; auto.
  specialize (Hk a s1). destruct (k a s1) as [b s2|s2|]; auto.
  destruct Hm as [Hm1 Hm2], Hk as [Hk1 Hk2]. split; congruence.
Qed.

Lemma pure_when (b : bool) (m : M (State V) unit) :
  pure_visit m -> pure_visit (when b m).
Proof. destruct b; [auto | intros _; apply pure_ret]. Qed.

Lemma pure_call_visitor (obj ref : Ref) (off : MemberOffset) (s : bool) :
  pure_visit (call_visitor visitor obj ref off s).
Proof. intros st. simpl. now split. Qed.

Lemma pure_for_range (body : Z -> M (State V) unit) (n : nat) :
  (forall i, pure_visit (body i)) ->
  forall from, pure_visit (for_range from n body).
Proof.
  intros Hbody. induction n as [|n IH]; intros from; simpl.
  - apply pure_ret.
  - apply pure_bind; auto.
Qed.

Lemma pure_bitmap_loop (obj : Ref) (is_static : bool) (fuel : nat) :
  forall r, pure_visit (bitmap_loop cfg h visitor fuel obj r is_static).
Proof.
  induction fuel as [|fuel IH]; intros r; rewrite bitmap_loop_eq;
    destruct (r =? 0); try apply pure_ret.
  - apply pure_out_of_fuel.
  - apply pure_bind; [apply pure_call_visitor | intros _; apply IH].
Qed.

Lemma pure_class_walk (obj : Ref) (is_static : bool) (fuel : nat) :
  forall klass, pure_visit (class_walk h visitor fuel obj klass is_static).
Proof.
  induction fuel as [|fuel IH]; intros klass; rewrite class_walk_eq;
    destruct (klass =? NULL); try apply pure_ret.
  - apply pure_out_of_fuel.
  - apply pure_bind; [|intros _; apply IH].
    unfold visit_class_fields, for_upto. apply pure_for_range.
    intros i. apply pure_call_visitor.
Qed.

Lemma pure_VisitFieldsReferences (fuel : nat) (obj : Ref) (r : Z)
      (is_static : bool) :
  pure_visit (VisitFieldsReferences cfg h visitor fuel obj r is_static).
Proof.
  unfold VisitFieldsReferences. destruct (negb (r =? CLASS_WALK_SUPER cfg)).
  - apply pure_bitmap_loop.
  - apply pure_class_walk.
Qed.

Lemma pure_VisitObjectArrayReferences (array : Ref) :
  pure_visit (VisitObjectArrayReferences cfg h visitor array).
Proof.
  unfold VisitObjectArrayReferences, for_upto. apply pure_for_range.
  intros i. apply pure_call_visitor.
Qed.

Lemma pure_DCHECK (cond : bool) :
  negb (kIsDebugBuild cfg) || cond = true ->
  pure_visit (DCHECK cfg (V := V) cond).
Proof.
  intros Hpass st. rewrite (@DCHECK_pass cfg V cond st Hpass). now split.
Qed.

Lemma pure_VisitInstanceFieldsReferences (fuel : nat) (klass obj : Ref) :
  negb (kIsDebugBuild cfg) || negb (obj =? NULL) = true ->
  negb (kIsDebugBuild cfg) || negb (klass =? NULL) = true ->
  pure_visit (VisitInstanceFieldsReferences cfg h visitor fuel klass obj).
Proof.
  intros Hobj Hklass. unfold VisitInstanceFieldsReferences.
  apply pure_bind; [now apply pure_DCHECK | intros _].
  apply pure_bind; [now apply pure_DCHECK | intros _].
  apply pure_VisitFieldsReferences.
Qed.

Lemma pure_VisitClassReferences (fuel : nat) (klass obj : Ref) :
  negb (kIsDebugBuild cfg) || negb (obj =? NULL) = true ->
  negb (kIsDebugBuild cfg) || negb (klass =? NULL) = true ->
  pure_visit (VisitClassReferences cfg h visitor fuel klass obj).
Proof.
  intros Hobj Hklass. unfold VisitClassReferences.
  apply pure_bind; [now apply pure_VisitInstanceFieldsReferences | intros _].
  unfold VisitStaticFieldsReferences.
  apply pure_bind; [now apply pure_DCHECK | intros _].
  apply pure_VisitFieldsReferences.
Qed.

Lemma pure_visit_cases (m : M (State V) unit) (st : State V) :
  pure_visit m ->
  m st = OutOfFuel
  \/ exists s', m st = Ok tt s' /\ ms s' = ms st /\ effects s' = effects st.
Proof.
  intros Hm. specialize (Hm st). destruct (m st) as [[] s'|s'|].
  - right. exists s'. now split.
  - contradiction.
  - now left.
Qed.

(** The part of both entry points after the class tests, for an array. *)
Lemma pure_array_branch (obj : Ref) :
  pure_visit
    (bind (call_visitor visitor obj (GetClass h obj) (ClassOffset cfg) false)
          (fun _ => when (IsObjectArrayClass h (GetClass h obj))
                         (VisitObjectArrayReferences cfg h visitor obj))).
Proof.
  apply pure_bind; [apply pure_call_visitor | intros _].
  apply pure_when. apply pure_VisitObjectArrayReferences.
Qed.

Lemma dchecks_fail_parts (meta obj : Ref) :
  dchecks_pass cfg h meta obj = false ->
  kIsDebugBuild cfg = true
  /\ ((obj =? NULL) = true
      \/ ((obj =? NULL) = false /\ (GetClass h obj =? NULL) = true)
      \/ ((obj =? NULL) = false /\ (GetClass h obj =? NULL) = false
          /\ (GetClass h obj =? meta) = true
          /\ (GetClass h (GetClass h obj) =? meta) = false)).
Proof.
  unfold dchecks_pass. destruct (kIsDebugBuild cfg); simpl; [|discriminate].
  destruct (obj =? NULL); simpl; [auto|].
  destruct (GetClass h obj =? NULL); simpl; [auto|].
  destruct (GetClass h obj =? meta); simpl; [|discriminate].
  destruct (GetClass h (GetClass h obj) =? meta); simpl; [discriminate|].
  intros _. split; [reflexivity|]. right. right. auto.
Qed.

Lemma VisitObjectReferences_failing (fuel : nat) (obj : Ref) (st : State V) :
  dchecks_pass cfg h (GetJavaLangClass h) obj = false ->
  VisitObjectReferences cfg h visitor fuel obj st
  = Aborted (emit EvCheckFailed st).
Proof.
  intros Hd. apply dchecks_fail_parts in Hd as [Hdebug Hcases].
  unfold VisitObjectReferences, bind, DCHECK. rewrite Hdebug.
  destruct Hcases as [Ho|[(Ho & Hk)|(Ho & Hk & Hm & Hmm)]].
  - rewrite Ho. reflexivity.
  - rewrite Ho, Hk. reflexivity.
  - rewrite Ho, Hk, Hm, Hmm. reflexivity.
Qed.

Lemma VisitObjectReferences_passing (fuel : nat) (obj : Ref) (st : State V) :
  dchecks_pass cfg h (GetJavaLangClass h) obj = true ->
  VisitObjectReferences cfg h visitor fuel obj st = OutOfFuel
  \/ exists s',
      VisitObjectReferences cfg h visitor fuel obj st = Ok tt s'
      /\ ms s' = ms st /\ effects s' = effects st.
Proof.
  intros Hd.
  destruct (@dchecks_pass_parts cfg h _ _ Hd) as (Hobj & Hklass & Hmeta).
  unfold VisitObjectReferences.
  step_ok (@DCHECK_pass cfg V _ st Hobj).
  step_ok (@DCHECK_pass cfg V _ st Hklass).
  step_ok (@DCHECK_pass cfg V _ st Hklass).
  destruct (GetClass h obj =? GetJavaLangClass h) eqn:Hk.
  - step_ok (@DCHECK_pass cfg V _ st (Hmeta eq_refl)).
    apply pure_visit_cases. now apply pure_VisitClassReferences.
  - destruct (IsArrayClass h (GetClass h obj)).
    + apply pure_visit_cases. apply pure_array_branch.
    + apply pure_visit_cases. unfold VisitOtherReferences.
      now apply pure_VisitInstanceFieldsReferences.
Qed.

Lemma ScanObjectVisit_failing (fuel : nat) (obj : Ref) (st : State V) :
  dchecks_pass cfg h (java_lang_Class_ (ms st)) obj = false ->
  obj = NULL \/ IsMarked h obj = true ->
  ScanObjectVisit cfg h visitor fuel obj st = Aborted (emit EvCheckFailed st).
Proof.
  intros Hd Hmark. apply dchecks_fail_parts in Hd as [Hdebug Hcases].
  unfold ScanObjectVisit, bind, DCHECK, when, gets. rewrite Hdebug.
  destruct Hcases as [Ho|[(Ho & Hk)|(Ho & Hk & Hm & Hmm)]].
  - rewrite Ho. reflexivity.
  - destruct Hmark as [->|Hmark]; [discriminate|].
    rewrite Ho, Hmark, Hk. reflexivity.
  - destruct Hmark as [->|Hmark]; [discriminate|].
    rewrite Ho, Hmark, Hk. simpl. rewrite Hm, Hmm. reflexivity.
Qed.

Lemma ScanObjectVisit_unmarked (fuel : nat) (obj : Ref) (st : State V) :
  kIsDebugBuild cfg = true -> (obj =? NULL) = false -> IsMarked h obj = false ->
  ScanObjectVisit cfg h visitor fuel obj st
  = Aborted {| ms := ms st;
               effects := effects st ++ [EvDumpSpaces; EvFatalUnmarked obj];
               vs := vs st |}.
Proof.
  intros Hdebug Ho Hm.
  unfold ScanObjectVisit, bind, DCHECK, when. rewrite Hdebug, Ho, Hm. simpl.
  unfold emit; simpl. now rewrite <- app_assoc.
Qed.

Lemma bind_when_modify {B} (b : bool) (f : State V -> State V)
      (k : unit -> M (State V) B) (st : State V) :
  bind (when b (modify f)) k st = k tt (if b then f st else st).
Proof. destruct b; reflexivity. Qed.

Lemma bind_out_of_fuel {A B} (m : M (State V) A) (k : A -> M (State V) B)
      (st : State V) :
  m st = OutOfFuel -> bind m k st = OutOfFuel.
Proof. intros Hm. unfold bind. now rewrite Hm. Qed.

Lemma counted_state (kind : Kind) (f : MarkSweep -> MarkSweep) (st : State V) :
  (kCountScannedTypes cfg = true -> count_kind cfg kind (ms st) = f (ms st)) ->
  ms (if kCountScannedTypes cfg then set_ms f st else st)
  = count_kind cfg kind (ms st)
  /\ effects (if kCountScannedTypes cfg then set_ms f st else st) = effects st.
Proof.
  intros Hf. unfold count_kind in *.
  destruct (kCountScannedTypes cfg); simpl; [|now split].
  split; [symmetry; now apply Hf | reflexivity].
Qed.

Lemma ScanObjectVisit_passing (fuel : nat) (obj : Ref) (st : State V) :
  dchecks_pass cfg h (java_lang_Class_ (ms st)) obj = true ->
  marked_ok cfg h obj = true ->
  ScanObjectVisit cfg h visitor fuel obj st = OutOfFuel
  \/ exists s',
      ScanObjectVisit cfg h visitor fuel obj st = Ok tt s'
      /\ ms s' = count_kind cfg (classify h (java_lang_Class_ (ms st)) obj)
                            (ms st)
      /\ effects s'
         = effects st
           ++ delayed h (classify h (java_lang_Class_ (ms st)) obj) obj.
Proof.
  intros Hd Hm.
  destruct (@dchecks_pass_parts cfg h _ _ Hd) as (Hobj & Hklass & Hmeta).
  match goal with |- ?run = OutOfFuel \/ _ => pattern run end.
  match goal with |- ?P _ => set (Post := P) end.
  unfold ScanObjectVisit.
  step_ok (@DCHECK_pass cfg V _ st Hobj).
  assert (Hnofatal : (kIsDebugBuild cfg && negb (IsMarked h obj)) = false).
  { unfold marked_ok in Hm.
    destruct (kIsDebugBuild cfg), (IsMarked h obj); simpl in *; congruence. }
  rewrite Hnofatal. unfold when at 1.
  step_ok (eq_refl : ret tt st = Ok tt st).
  step_ok (@DCHECK_pass cfg V _ st Hklass).
  step_ok (eq_refl : gets (fun st => java_lang_Class_ (ms st)) st
                     = Ok (java_lang_Class_ (ms st)) st).
  destruct (GetClass h obj =? java_lang_Class_ (ms st)) eqn:Hk.
  - step_ok (@DCHECK_pass cfg V _ st (Hmeta eq_refl)).
    rewrite bind_when_modify.
    destruct (@counted_state KindClass (incr_class_count cfg) st)
      as [Hms1 Heff1]; [unfold count_kind; now intros -> |].
    set (st1 := if kCountScannedTypes cfg
                then set_ms (incr_class_count cfg) st else st) in *.
    subst Post. cbv beta. unfold classify, delayed. rewrite Hk.
    destruct (@pure_visit_cases _ st1
                (@pure_VisitClassReferences fuel _ _ Hobj Hklass))
      as [Hout|(s' & Hrun & Hms & Heff)]; [now left|].
    right. exists s'. split; [exact Hrun|].
    rewrite Hms, Heff, Hms1, Heff1. now rewrite app_nil_r.
  - destruct (IsArrayClass h (GetClass h obj)) eqn:Harr.
    + rewrite bind_when_modify.
      destruct (@counted_state KindArray (incr_array_count cfg) st)
        as [Hms1 Heff1]; [unfold count_kind; now intros -> |].
      set (st1 := if kCountScannedTypes cfg
                  then set_ms (incr_array_count cfg) st else st) in *.
      subst Post. cbv beta. unfold classify, delayed. rewrite Hk, Harr.
      destruct (@pure_visit_cases _ st1 (pure_array_branch obj))
        as [Hout|(s' & Hrun & Hms & Heff)]; [now left|].
      right. exists s'. split; [exact Hrun|].
      rewrite Hms, Heff, Hms1, Heff1. now rewrite app_nil_r.
    + rewrite bind_when_modify.
      destruct (@counted_state KindOther (incr_other_count cfg) st)
        as [Hms1 Heff1]; [unfold count_kind; now intros -> |].
      set (st1 := if kCountScannedTypes cfg
                  then set_ms (incr_other_count cfg) st else st) in *.
      subst Post. cbv beta. unfold classify, delayed. rewrite Hk, Harr.
      unfold VisitOtherReferences.
      destruct (@pure_visit_cases _ st1
                  (@pure_VisitInstanceFieldsReferences fuel _ _ Hobj Hklass))
        as [Hout|(s' & Hrun & Hms & Heff)].
      * left. now apply bind_out_of_fuel.
      * right. step_ok Hrun.
        destruct (IsReferenceClass h (GetClass h obj)); simpl.
        -- eexists. split; [reflexivity|]. simpl.
           now rewrite Hms, Heff, Hms1, Heff1.
        -- exists s'. split; [reflexivity|].
           rewrite Hms, Heff, Hms1, Heff1. now rewrite app_nil_r.
Qed.
End PureVisit.

(** Every run of [ScanObjectVisit] is of one of three kinds. *)
Lemma ScanObjectVisit_cases (cfg : Config) (h : Heap) (V : Type)
      (visitor : Visitor V) (fuel : nat) (obj : Ref) (st : State V) :
  (dchecks_pass cfg h (java_lang_Class_ (ms st)) obj = false
   /\ ScanObjectVisit cfg h visitor fuel obj st
      = Aborted (emit EvCheckFailed st))
  \/ (kIsDebugBuild cfg = true /\ obj <> NULL /\ IsMarked h obj = false
      /\ ScanObjectVisit cfg h visitor fuel obj st
         = Aborted {| ms := ms st;
                      effects := effects st ++ [EvDumpSpaces; EvFatalUnmarked obj];
                      vs := vs st |})
  \/ (dchecks_pass cfg h (java_lang_Class_ (ms st)) obj = true
      /\ marked_ok cfg h obj = true
      /\ (ScanObjectVisit cfg h visitor fuel obj st = OutOfFuel
          \/ exists s',
              ScanObjectVisit cfg h visitor fuel obj st = Ok tt s'
              /\ ms s'
                 = count_kind cfg (classify h (java_lang_Class_ (ms st)) obj)
                              (ms st)
              /\ effects s'
                 = effects st
                   ++ delayed h (classify h (java_lang_Class_ (ms st)) obj) obj)).
Proof.
  destruct (kIsDebugBuild cfg) eqn:Hdebug.
  - destruct (Z.eqb_spec obj NULL) as [Ho|Ho].
    + left.
      assert (Hd : dchecks_pass cfg h (java_lang_Class_ (ms st)) obj = false).
      { unfold dchecks_pass. rewrite Hdebug, Ho. reflexivity. }
      split; [exact Hd|]. apply ScanObjectVisit_failing; auto.
    + destruct (IsMarked h obj) eqn:Hm.
      * destruct (dchecks_pass cfg h (java_lang_Class_ (ms st)) obj) eqn:Hd.
        -- right. right. split; [reflexivity|].
           assert (Hok : marked_ok cfg h obj = true)
             by (unfold marked_ok; rewrite Hm; apply orb_true_r).
           split; [exact Hok|]. now apply ScanObjectVisit_passing.
        -- left. split; [reflexivity|]. apply ScanObjectVisit_failing; auto.
      * right. left. repeat split; auto.
        apply ScanObjectVisit_unmarked; auto. now apply Z.eqb_neq.
  - right. right.
    assert (Hd : dchecks_pass cfg h (java_lang_Class_ (ms st)) obj = true)
      by (unfold dchecks_pass; now rewrite Hdebug).
    assert (Hok : marked_ok cfg h obj = true)
      by (unfold marked_ok; now rewrite Hdebug).
    split; [exact Hd|]. split; [exact Hok|]. now apply ScanObjectVisit_passing.
Qed.

Lemma dchecks_fail_debug (cfg : Config) (h : Heap) (meta obj : Ref) :
  dchecks_pass cfg h meta obj = false -> kIsDebugBuild cfg = true.
Proof.
  unfold dchecks_pass. destruct (kIsDebugBuild cfg); [reflexivity|discriminate].
Qed.

(** X6.  In a debug build, when one of the assertions of [ScanObjectVisit]
    fails (the object is null, its class is null, or its class is the
    meta-class but the meta-class is not its own class) and the marked test
    does not fire first, the scan aborts on the failed check: nothing is
    dumped, the visitor is not called, no counter moves and the hook is not
    called. *)
Theorem ScanObjectVisit_failed_check :
  forall (cfg : Config) (h : Heap) (V : Type) (visitor : Visitor V)
         (fuel : nat) (obj : Ref) (st : State V),
    dchecks_pass cfg h (java_lang_Class_ (ms st)) obj = false ->
    obj = NULL \/ IsMarked h obj = true ->
    kIsDebugBuild cfg = true
    /\ ScanObjectVisit cfg h visitor fuel obj st
       = Aborted {| ms := ms st;
                    effects := effects st ++ [EvCheckFailed];
                    vs := vs st |}.
Proof.
  intros cfg h V visitor fuel obj st Hd Hmark.
  split; [now apply dchecks_fail_debug in Hd|].
  now apply ScanObjectVisit_failing.
Qed.

(** X7.  In a debug build, when one of the assertions of
    [VisitObjectReferences] fails, it aborts on the failed check before any
    visitor call; it has no marked test, so nothing else can abort it. *)
Theorem VisitObjectReferences_failed_check :
  forall (cfg : Config) (h : Heap) (V : Type) (visitor : Visitor V)
         (fuel : nat) (obj : Ref) (st : State V),
    dchecks_pass cfg h (GetJavaLangClass h) obj = false ->
    kIsDebugBuild cfg = true
    /\ VisitObjectReferences cfg h visitor fuel obj st
       = Aborted {| ms := ms st;
                    effects := effects st ++ [EvCheckFailed];
                    vs := vs st |}.
Proof.
  intros cfg h V visitor fuel obj st Hd.
  split; [now apply dchecks_fail_debug in Hd|].
  now apply VisitObjectReferences_failing.
Qed.

(** X8.  An abort of [ScanObjectVisit] is all or nothing.  It happens only
    in a debug build and only before the first counter update and the first
    visitor call: the counters and the visitor's state are as they were,
    the hook has not been called, and the effects are either the failed
    check or the heap dump followed by the fatal message. *)
Theorem ScanObjectVisit_abort_is_atomic :
  forall (cfg : Config) (h : Heap) (V : Type) (visitor : Visitor V)
         (fuel : nat) (obj : Ref) (st s' : State V),
    ScanObjectVisit cfg h visitor fuel obj st = Aborted s' ->
    kIsDebugBuild cfg = true
    /\ ms s' = ms st
    /\ vs s' = vs st
    /\ (effects s' = effects st ++ [EvCheckFailed]
        \/ (IsMarked h obj = false
            /\ effects s'
               = effects st ++ [EvDumpSpaces; EvFatalUnmarked obj])).
Proof.
  intros cfg h V visitor fuel obj st s' Hrun.
  destruct (ScanObjectVisit_cases cfg h visitor fuel obj st)
    as [(Hd & Hab)|[(Hdebug & Ho & Hm & Hab)|(Hd & Hok & [Hout|(s1 & Hret & _)])]];
    rewrite Hrun in *; try discriminate.
  - injection Hab as ->. apply dchecks_fail_debug in Hd.
    repeat split; auto.
  - injection Hab as ->. repeat split; auto.
Qed.

(** X9.  When [ScanObjectVisit] returns, the debug checks held, the
    counters are those of before with the counter of the object's kind
    incremented if counting is enabled and untouched otherwise, and the
    hook was called once if the object is an ordinary instance of a
    reference class and not at all otherwise: never for a class object or
    an array, whatever the flags of its class.  This needs no assumption on
    the layout words. *)
Theorem ScanObjectVisit_return_bookkeeping :
  forall (cfg : Config) (h : Heap) (V : Type) (visitor : Visitor V)
         (fuel : nat) (obj : Ref) (st s' : State V),
    ScanObjectVisit cfg h visitor fuel obj st = Ok tt s' ->
    let kind := classify h (java_lang_Class_ (ms st)) obj in
    dchecks_pass cfg h (java_lang_Class_ (ms st)) obj = true
    /\ marked_ok cfg h obj = true
    /\ ms s' = count_kind cfg kind (ms st)
    /\ (kCountScannedTypes cfg = false -> ms s' = ms st)
    /\ java_lang_Class_ (ms s') = java_lang_Class_ (ms st)
    /\ effects s'
       = effects st
         ++ (match kind with
             | KindOther =>
                 if IsReferenceClass h (GetClass h obj)
                 then [EvDelayReferenceReferent obj] else []
             | _ => []
             end)
    /\ (kind <> KindOther -> effects s' = effects st).
Proof.
  intros cfg h V visitor fuel obj st s' Hrun kind.
  destruct (ScanObjectVisit_cases cfg h visitor fuel obj st)
    as [(Hd & Hab)|[(Hdebug & Ho & Hm & Hab)|(Hd & Hok & [Hout|(s1 & Hret & Hms & Heff)])]];
    rewrite Hrun in *; try discriminate.
  injection Hret as <-. fold kind in Hms, Heff.
  split; [exact Hd|]. split; [exact Hok|]. split; [exact Hms|].
  split; [|split; [|split]].
  - intros Hoff. rewrite Hms. unfold count_kind. now rewrite Hoff.
  - rewrite Hms. unfold count_kind.
    destruct (kCountScannedTypes cfg); [|reflexivity].
    destruct kind; reflexivity.
  - exact Heff.
  - intros Hkind. rewrite Heff. unfold delayed.
    destruct kind; try congruence; now rewrite app_nil_r.
Qed.

(** X10.  Without debug checks neither entry point ever aborts on a real
    object: one that is not null, whose class is not null and whose classes
    have real field descriptors, so that every pointer the scanner reads
    through is valid.  Every such run returns or keeps running. *)
Theorem release_build_never_aborts :
  forall (cfg : Config) (h : Heap) (V : Type) (visitor : Visitor V)
         (fuel : nat) (obj : Ref) (st s' : State V),
    kIsDebugBuild cfg = false ->
    derefs_ok h obj ->
    ScanObjectVisit cfg h visitor fuel obj st <> Aborted s'
    /\ VisitObjectReferences cfg h visitor fuel obj st <> Aborted s'.
Proof.
  intros cfg h V visitor fuel obj st s' Hrelease _. split.
  - intros Hrun.
    destruct (ScanObjectVisit_cases cfg h visitor fuel obj st)
      as [(Hd & Hab)|[(Hdebug & _)|(Hd & Hok & [Hout|(s1 & Hret & _)])]];
      try congruence.
    apply dchecks_fail_debug in Hd. congruence.
  - intros Hrun.
    assert (Hd : dchecks_pass cfg h (GetJavaLangClass h) obj = true)
      by (unfold dchecks_pass; now rewrite Hrelease).
    destruct (@VisitObjectReferences_passing cfg h V visitor fuel obj st Hd)
      as [Hout|(s1 & Hret & _)]; congruence.
Qed.

(** X11.  When [VisitObjectReferences] returns, the debug checks held and
    it has only called the visitor: the collector's members and the
    recorded effects are as before, so neither the hook nor the heap dump
    was called.  This needs no assumption on the layout words. *)
Theorem VisitObjectReferences_only_visits :
  forall (cfg : Config) (h : Heap) (V : Type) (visitor : Visitor V)
         (fuel : nat) (obj : Ref) (st s' : State V),
    VisitObjectReferences cfg h visitor fuel obj st = Ok tt s' ->
    dchecks_pass cfg h (GetJavaLangClass h) obj = true
    /\ ms s' = ms st
    /\ effects s' = effects st.
Proof.
  intros cfg h V visitor fuel obj st s' Hrun.
  destruct (dchecks_pass cfg h (GetJavaLangClass h) obj) eqn:Hd.
  - destruct (@VisitObjectReferences_passing cfg h V visitor fuel obj st Hd)
      as [Hout|(s1 & Hret & Hms & Heff)]; [congruence|].
    rewrite Hrun in Hret. injection Hret as <-. auto.
  - rewrite (@VisitObjectReferences_failing cfg h V visitor fuel obj st Hd)
      in Hrun.
    discriminate.
Qed.

(** ** What the visitor is given *)

Lemma FieldsCalls_slots (cfg : Config) (h : Heap) (fuel : nat) (obj : Ref)
      (r : Z) (is_static : bool) (calls : list Call) :
  FieldsCalls cfg h fuel obj r is_static = Some calls ->
  Forall (fun c => holder c = obj
                   /\ is_static_field c = is_static
                   /\ referent c = GetFieldObject h obj (offset c)) calls.
Proof.
  unfold FieldsCalls.
  destruct (negb (r =? CLASS_WALK_SUPER cfg)).
  - destruct (popcount r <=? fuel)%nat; [|discriminate].
    unfold bitmap_calls. generalize (set_bits_desc r) as bits. intros bits.
    intros [= <-]. apply Forall_map_calls. intros b. repeat split.
  - destruct is_static.
    + destruct (obj =? NULL); [intros [= <-]; constructor|].
      destruct fuel; [discriminate|]. intros [= <-].
      apply Forall_map_calls. intros i. repeat split.
    + destruct (ancestors h fuel (GetClass h obj)) as [chain|]; [|discriminate].
      simpl. intros [= <-]. apply Forall_forall. intros c Hc.
      apply in_flat_map in Hc as (klass & _ & Hc).
      apply in_map_iff in Hc as (i & <- & _). repeat split.
Qed.

Lemma ObjectCalls_slots (cfg : Config) (h : Heap) (meta : Ref) (fuel : nat)
      (obj : Ref) (calls : list Call) :
  ObjectCalls cfg h meta fuel obj = Some calls ->
  Forall (fun c => holder c = obj
                   /\ (is_static_field c = true ->
                       classify h meta obj = KindClass)
                   /\ (classify h meta obj <> KindArray ->
                       referent c = GetFieldObject h obj (offset c))) calls.
Proof.
  unfold ObjectCalls. destruct (classify h meta obj) eqn:Hkind.
  - unfold ClassCalls.
    destruct (FieldsCalls cfg h fuel obj
                (GetReferenceInstanceOffsets h (GetClass h obj)) false)
      as [inst|] eqn:Hinst; [|discriminate].
    destruct (FieldsCalls cfg h fuel obj (GetReferenceStaticOffsets h obj) true)
      as [stat|] eqn:Hstat; [|discriminate].
    intros [= <-]. apply Forall_app. split.
    + eapply Forall_impl; [|exact (FieldsCalls_slots _ _ _ _ _ _ Hinst)].
      intros c (Hh & Hs & Hr). auto.
    + eapply Forall_impl; [|exact (FieldsCalls_slots _ _ _ _ _ _ Hstat)].
      intros c (Hh & Hs & Hr). auto.
  - intros [= <-]. unfold ArrayObjectCalls. constructor.
    + simpl. repeat split; congruence.
    + destruct (IsObjectArrayClass h (GetClass h obj)); [|constructor].
      unfold array_calls. apply Forall_map_calls. intros i. simpl.
      repeat split; congruence.
  - intros Hcalls.
    eapply Forall_impl; [|exact (FieldsCalls_slots _ _ _ _ _ _ Hcalls)].
    intros c (Hh & Hs & Hr). repeat split; auto. congruence.
Qed.

(** X12.  A scan only reports slots of the scanned object.  In every
    visitor call of a returning [ScanObjectVisit] the holder is the object
    itself, also when the slow path walks its superclasses; the static flag
    is set only when the object is a class object; and, unless the object is
    an array, the referent is the reference stored in the object at the
    reported offset. *)
Theorem scan_reports_own_slots :
  forall (cfg : Config) (h : Heap) (fuel : nat) (obj : Ref)
         (st s' : State (list Call)),
    wf_offsets h (java_lang_Class_ (ms st)) obj = true ->
    ScanObjectVisit cfg h recorder fuel obj st = Ok tt s' ->
    exists calls : list Call,
      vs s' = vs st ++ calls
      /\ Forall (fun c =>
                   holder c = obj
                   /\ (is_static_field c = true ->
                       classify h (java_lang_Class_ (ms st)) obj = KindClass)
                   /\ (classify h (java_lang_Class_ (ms st)) obj <> KindArray ->
                       referent c = GetFieldObject h obj (offset c)))
                calls.
Proof.
  intros cfg h fuel obj st s' Hwf Hrun.
  destruct (ScanObjectVisit_cases cfg h recorder fuel obj st)
    as [(Hd & Hab)|[(Hdebug & Ho & Hm & Hab)|(Hd & Hok & _)]];
    try congruence.
  rewrite ScanObjectVisit_calls in Hrun by assumption.
  destruct (ObjectCalls cfg h (java_lang_Class_ (ms st)) fuel obj)
    as [calls|] eqn:Hcalls; [|discriminate].
  injection Hrun as <-. exists calls. split.
  - unfold scanned. simpl. apply replay_recorder.
  - exact (ObjectCalls_slots _ _ _ _ _ Hcalls).
Qed.

(** ** The further properties at work on the small heaps *)

Lemma bitmap_path_offsets_ascending_witness :
  uint32 671088640
  /\ 671088640 <> CLASS_WALK_SUPER demo_cfg
  /\ (popcount 671088640 <= 2)%nat
  /\ 0 < CLASS_OFFSET_ALIGNMENT demo_cfg
  /\ exists calls : list Call,
      VisitFieldsReferences demo_cfg demo_heap recorder 2 1000 671088640 false
                            (demo_state [])
      = Ok tt (visited recorder calls (demo_state []))
      /\ length calls = 2%nat
      /\ NoDup (map offset calls).
Proof.
  assert (H1 : uint32 671088640) by (unfold uint32; lia).
  assert (H2 : 671088640 <> CLASS_WALK_SUPER demo_cfg) by (simpl; lia).
  assert (H3 : (popcount 671088640 <= 2)%nat) by (vm_compute; lia).
  assert (H4 : 0 < CLASS_OFFSET_ALIGNMENT demo_cfg) by (simpl; lia).
  destruct (@bitmap_path_offsets_ascending demo_cfg demo_heap _ recorder 2 1000
              671088640 false (demo_state []) H1 H2 H3 H4)
    as (calls & Hrun & Hlen & _ & _ & Hnodup & _).
  repeat (split; [assumption|]).
  exists calls. split; [exact Hrun|]. split; [|exact Hnodup].
  rewrite Hlen. reflexivity.
Defined.

Lemma VisitObjectArrayReferences_slots_witness :
  array_fits demo_cfg demo_heap 1200 = true
  /\ exists calls : list Call,
      VisitObjectArrayReferences demo_cfg demo_heap recorder 1200
                                 (demo_state [])
      = Ok tt (visited recorder calls (demo_state []))
      /\ length calls = 3%nat
      /\ nth_error calls 2 = Some (mkCall 1200 1203 20 false).
Proof.
  assert (H1 : array_fits demo_cfg demo_heap 1200 = true) by reflexivity.
  destruct (@VisitObjectArrayReferences_slots demo_cfg demo_heap _ recorder
              1200 (demo_state []))
    as (calls & Hrun & Hlen & _ & _ & Hfits).
  destruct (Hfits H1) as (Hnth & _).
  split; [exact H1|]. exists calls.
  split; [exact Hrun|]. split; [rewrite Hlen; reflexivity|].
  assert (H2 : 0 <= 2 < GetLength demo_heap 1200) by (vm_compute; split; congruence).
  exact (Hnth 2 H2).
Defined.

Lemma fast_and_slow_path_agree_witness :
  uint32 671088640
  /\ 671088640 <> CLASS_WALK_SUPER demo_cfg
  /\ (popcount 671088640 <= 2)%nat
  /\ ancestors flat_heap 2 (GetClass flat_heap 16) = Some [32]
  /\ VisitFieldsReferences demo_cfg flat_heap recorder 2 16 671088640 false
                           (demo_state [])
     = VisitFieldsReferences demo_cfg flat_heap recorder 2 16
                             (CLASS_WALK_SUPER demo_cfg) false (demo_state []).
Proof.
  assert (H1 : uint32 671088640) by (unfold uint32; lia).
  assert (H2 : 671088640 <> CLASS_WALK_SUPER demo_cfg) by (simpl; lia).
  assert (H3 : (popcount 671088640 <= 2)%nat) by (vm_compute; lia).
  assert (H4 : ancestors flat_heap 2 (GetClass flat_heap 16) = Some [32])
    by reflexivity.
  assert (H5 : map (fun b => CLASS_OFFSET_FROM_CLZ demo_cfg (31 - b))
                   (set_bits_desc 671088640)
               = flat_map
                   (fun klass =>
                      map (fun i => GetOffset flat_heap
                                      (GetInstanceField flat_heap klass i))
                          (indices (NumReferenceInstanceFields flat_heap klass)))
                   [32]) by reflexivity.
  repeat (split; [assumption|]).
  exact (proj1 (@fast_and_slow_path_agree demo_cfg flat_heap _ recorder 2 16
                  671088640 [32] (demo_state []) H1 H2 H3 H4 H5)).
Defined.

Lemma walk_super_endless_chain_diverges_witness :
  (forall n : nat,
      Nat.iter n (GetSuperClass cyclic_heap) (GetClass cyclic_heap 16) <> NULL)
  /\ VisitFieldsReferences demo_cfg cyclic_heap recorder 1000 16
                           (CLASS_WALK_SUPER demo_cfg) false (demo_state [])
     = OutOfFuel.
Proof.
  assert (H1 : forall n : nat,
             Nat.iter n (GetSuperClass cyclic_heap) (GetClass cyclic_heap 16)
             <> NULL).
  { assert (Hfix : forall n : nat,
               Nat.iter n (GetSuperClass cyclic_heap) (GetClass cyclic_heap 16)
               = 32).
    { induction n as [|n IH]; [reflexivity|].
      rewrite Nat.iter_succ, IH. reflexivity. }
    intros n. rewrite Hfix. discriminate. }
  split; [exact H1|].
  exact (@walk_super_endless_chain_diverges demo_cfg cyclic_heap _ recorder 16
           (demo_state []) H1 1000%nat).
Defined.

Lemma bitmap_path_reads_only_object_slots_witness :
  671088640 <> CLASS_WALK_SUPER demo_cfg
  /\ (forall off, GetFieldObject flat_heap 16 off
                  = GetFieldObject cyclic_heap 16 off)
  /\ VisitFieldsReferences demo_cfg flat_heap recorder 2 16 671088640 false
                           (demo_state [])
     = VisitFieldsReferences demo_cfg cyclic_heap recorder 2 16 671088640 false
                             (demo_state []).
Proof.
  assert (H1 : 671088640 <> CLASS_WALK_SUPER demo_cfg) by (simpl; lia).
  assert (H2 : forall off, GetFieldObject flat_heap 16 off
                           = GetFieldObject cyclic_heap 16 off)
    by (intros off; reflexivity).
  repeat (split; [assumption|]).
  exact (@bitmap_path_reads_only_object_slots demo_cfg flat_heap cyclic_heap _
           recorder 2 16 671088640 false (demo_state []) H1 H2).
Defined.

Lemma ScanObjectVisit_failed_check_witness :
  dchecks_pass demo_cfg demo_heap (java_lang_Class_ demo_ms) 5000 = false
  /\ (5000 = NULL \/ IsMarked demo_heap 5000 = true)
  /\ ScanObjectVisit demo_cfg demo_heap recorder 32 5000 (demo_state [])
     = Aborted {| ms := demo_ms; effects := [EvCheckFailed]; vs := [] |}.
Proof.
  assert (H1 : dchecks_pass demo_cfg demo_heap
                 (java_lang_Class_ (ms (demo_state (@nil Call)))) 5000 = false)
    by reflexivity.
  assert (H2 : 5000 = NULL \/ IsMarked demo_heap 5000 = true)
    by (right; reflexivity).
  split; [exact H1|]. split; [exact H2|].
  exact (proj2 (@ScanObjectVisit_failed_check demo_cfg demo_heap _ recorder 32
                  5000 (demo_state []) H1 H2)).
Defined.

Lemma VisitObjectReferences_failed_check_witness :
  dchecks_pass demo_cfg demo_heap (GetJavaLangClass demo_heap) NULL = false
  /\ VisitObjectReferences demo_cfg demo_heap recorder 32 NULL (demo_state [])
     = Aborted {| ms := demo_ms; effects := [EvCheckFailed]; vs := [] |}.
Proof.
  assert (H1 : dchecks_pass demo_cfg demo_heap (GetJavaLangClass demo_heap) NULL
               = false) by reflexivity.
  split; [exact H1|].
  exact (proj2 (@VisitObjectReferences_failed_check demo_cfg demo_heap _
                  recorder 32 NULL (demo_state []) H1)).
Defined.

Lemma ScanObjectVisit_abort_is_atomic_witness :
  ScanObjectVisit demo_cfg demo_heap recorder 32 1400 (demo_state [])
  = Aborted {| ms := demo_ms;
               effects := [EvDumpSpaces; EvFatalUnmarked 1400];
               vs := [] |}
  /\ kIsDebugBuild demo_cfg = true.
Proof.
  assert (H1 : ScanObjectVisit demo_cfg demo_heap recorder 32 1400
                               (demo_state [])
               = Aborted {| ms := demo_ms;
                            effects := [EvDumpSpaces; EvFatalUnmarked 1400];
                            vs := [] |}) by (vm_compute; reflexivity).
  split; [exact H1|].
  exact (proj1 (@ScanObjectVisit_abort_is_atomic demo_cfg demo_heap _ recorder
                  32 1400 (demo_state []) _ H1)).
Defined.

Lemma ScanObjectVisit_return_bookkeeping_witness :
  ScanObjectVisit demo_cfg demo_heap counting_visitor 0 1200 (demo_state 0%nat)
  = Ok tt {| ms := {| java_lang_Class_ := 64; class_count_ := 0;
                      array_count_ := 1; other_count_ := 0 |};
             effects := [];
             vs := 4%nat |}
  /\ marked_ok demo_cfg demo_heap 1200 = true.
Proof.
  assert (H1 : ScanObjectVisit demo_cfg demo_heap counting_visitor 0 1200
                               (demo_state 0%nat)
               = Ok tt {| ms := {| java_lang_Class_ := 64; class_count_ := 0;
                                   array_count_ := 1; other_count_ := 0 |};
                          effects := [];
                          vs := 4%nat |}) by (vm_compute; reflexivity).
  split; [exact H1|].
  destruct (@ScanObjectVisit_return_bookkeeping demo_cfg demo_heap _
              counting_visitor 0 1200 (demo_state 0%nat) _ H1)
    as (_ & Hok & _).
  exact Hok.
Defined.

Lemma release_build_never_aborts_witness :
  kIsDebugBuild release_cfg = false
  /\ derefs_ok flat_heap 16
  /\ ScanObjectVisit release_cfg flat_heap recorder 32 16 (demo_state [])
     <> Aborted (demo_state [])
  /\ VisitObjectReferences release_cfg flat_heap recorder 32 16 (demo_state [])
     <> Aborted (demo_state []).
Proof.
  assert (H1 : kIsDebugBuild release_cfg = false) by reflexivity.
  assert (H2 : derefs_ok flat_heap 16).
  { split; [unfold NULL; lia|].
    split; [vm_compute; discriminate|].
    split.
    - intros klass i Hk Hi.
      unfold flat_heap, small_heap in *.
      cbn [NumReferenceInstanceFields GetInstanceField] in *.
      unfold assoc in *. cbn [find fst snd] in *.
      destruct (Z.eqb_spec 32 klass) as [<-|Hne]; [|lia].
      cbn [snd] in Hi.
      assert (Hcases : i = 0 \/ i = 1) by lia.
      destruct Hcases as [-> | ->]; vm_compute; discriminate.
    - intros klass i Hk Hi.
      unfold flat_heap, small_heap in Hi.
      cbn [NumReferenceStaticFields] in Hi.
      unfold assoc in Hi. cbn [find] in Hi. lia. }
  split; [exact H1|]. split; [exact H2|].
  exact (@release_build_never_aborts release_cfg flat_heap _ recorder 32 16
           (demo_state []) (demo_state []) H1 H2).
Defined.

Lemma VisitObjectReferences_only_visits_witness :
  VisitObjectReferences demo_cfg demo_heap recorder 1 1100 (demo_state [])
  = Ok tt {| ms := demo_ms; effects := [];
             vs := [mkCall 1100 1101 8 false] |}
  /\ dchecks_pass demo_cfg demo_heap (GetJavaLangClass demo_heap) 1100 = true.
Proof.
  assert (H1 : VisitObjectReferences demo_cfg demo_heap recorder 1 1100
                                     (demo_state [])
               = Ok tt {| ms := demo_ms; effects := [];
                          vs := [mkCall 1100 1101 8 false] |})
    by (vm_compute; reflexivity).
  split; [exact H1|].
  exact (proj1 (@VisitObjectReferences_only_visits demo_cfg demo_heap _ recorder
                  1 1100 (demo_state []) _ H1)).
Defined.

Lemma scan_reports_own_slots_witness :
  wf_offsets demo_heap (java_lang_Class_ demo_ms) 1300 = true
  /\ ScanObjectVisit demo_cfg demo_heap recorder 3 1300 (demo_state [])
     = Ok tt {| ms := {| java_lang_Class_ := 64; class_count_ := 0;
                         array_count_ := 0; other_count_ := 1 |};
                effects := [];
                vs := [mkCall 1300 1301 8 false; mkCall 1300 1302 12 false;
                       mkCall 1300 224 0 false] |}
  /\ exists calls : list Call,
      Forall (fun c => holder c = 1300) calls /\ length calls = 3%nat.
Proof.
  assert (H1 : wf_offsets demo_heap
                 (java_lang_Class_ (ms (demo_state (@nil Call)))) 1300 = true)
    by reflexivity.
  assert (H2 : ScanObjectVisit demo_cfg demo_heap recorder 3 1300
                               (demo_state [])
               = Ok tt {| ms := {| java_lang_Class_ := 64; class_count_ := 0;
                                   array_count_ := 0; other_count_ := 1 |};
                          effects := [];
                          vs := [mkCall 1300 1301 8 false;
                                 mkCall 1300 1302 12 false;
                                 mkCall 1300 224 0 false] |})
    by (vm_compute; reflexivity).
  split; [exact H1|]. split; [exact H2|].
  destruct (@scan_reports_own_slots demo_cfg demo_heap 3 1300 (demo_state [])
              _ H1 H2) as (calls & Hvs & Hall).
  exists calls. split.
  - eapply Forall_impl; [|exact Hall]. intros c (Hh & _). exact Hh.
  - simpl in Hvs. rewrite <- Hvs. reflexivity.
Defined.
